(** * baslerwrappers: a shallow embedding of the pypylon convenience layer

    The module [baslerwrappers.py] is a set of small functions over the pylon
    camera SDK.  Every function is a straight-line sequence of SDK calls with
    at most one [try]/[except] or [with] around it.  The SDK itself is not
    part of the repository, so it enters the development as a parameter: a
    handler that answers each SDK call, either with a value or by raising, and
    moves the device from one state to the next.  The wrappers are written in
    a state-and-exception monad over that handler and record every call they
    make, with its answer, in a log. *)

From Stdlib Require Import ZArith List String Bool Lia.
Import ListNotations.
Local Open Scope string_scope.
Local Open Scope Z_scope.
Local Open Scope list_scope.

(** ** SDK objects

    The objects handed out by the SDK are opaque to the wrappers; only their
    identity matters. *)

Inductive tl_factory := TlFactory (id : nat).
Inductive device := Device (id : nat).
Inductive camera_obj := Camera (id : nat).
Inductive device_info := DeviceInfo (id : nat).
Inductive nodemap := NodeMap (id : nat).
Inductive converter_obj := Converter (id : nat).
Inductive grab_result := GrabResult (id : nat).
Inductive pylon_image := PylonImageObj (id : nat).

(** The array returned by [GetArray]: its shape and its samples. *)
Record ndarray := NdArray { rows : Z; cols : Z; samples : list Z }.

(** The four integer nodes of the region of interest. *)
Inductive field := Width | Height | OffsetX | OffsetY.

Definition field_eqb (f g : field) : bool :=
  match f, g with
  | Width, Width | Height, Height | OffsetX, OffsetX | OffsetY, OffsetY => true
  | _, _ => false
  end.

Inductive timeout_handling := TimeoutHandling_Return | TimeoutHandling_ThrowException.
Inductive grab_strategy :=
  GrabStrategy_OneByOne | GrabStrategy_LatestImageOnly |
  GrabStrategy_LatestImages | GrabStrategy_UpcomingImage.
Inductive pixel_type := PixelType_Mono8 | PixelType_RGB8packed | PixelType_BGR8packed.
Inductive bit_alignment := OutputBitAlignment_LsbAligned | OutputBitAlignment_MsbAligned.
Inductive image_file_format :=
  ImageFileFormat_Bmp | ImageFileFormat_Tiff | ImageFileFormat_Jpeg |
  ImageFileFormat_Png | ImageFileFormat_Raw.

(** ** Exceptions

    [GenericException] stands for [genicam.GenericException] and every
    subclass the SDK raises (timeouts, out-of-range values, access errors);
    [RuntimeException] is the subclass the wrappers construct themselves from
    a message.  [UnboundLocalError] is Python's own, raised on reading a local
    variable that was never assigned; [PythonError] is any other exception
    that is not a genicam one. *)

Inductive exn :=
| GenericException (description what : string)
| RuntimeException (message : string)
| UnboundLocalError (name : string)
| PythonError (name : string).

(** What [except genicam.GenericException] catches. *)
Definition is_GenericException (e : exn) : bool :=
  match e with
  | GenericException _ _ | RuntimeException _ => true
  | UnboundLocalError _ | PythonError _ => false
  end.

Inductive outcome (A : Type) :=
| Returned (a : A)
| Raised (e : exn).
Arguments Returned {A} a.
Arguments Raised {A} e.

(** ** SDK calls

    One constructor per SDK entry point the wrappers use, indexed by the type
    of its answer.  An attribute assignment [camera.Width = v] is [SetValue];
    [camera.Width.Max] is [GetMax].  [GetDescription] and [what] are the
    methods the wrappers call on a caught exception object: like every other
    call into the binding they are answered by the SDK, with a string or by
    raising (an exception object without such a method raises
    [AttributeError]). *)

Inductive call : Type -> Type :=
| TlFactory_GetInstance : call tl_factory
| CreateFirstDevice (tl : tl_factory) : call device
| InstantCamera (dv : device) : call camera_obj
| GetDeviceInfo (cam : camera_obj) : call device_info
| GetModelName (di : device_info) : call string
| Open (cam : camera_obj) : call unit
| Close (cam : camera_obj) : call unit
| GetNodeMap (cam : camera_obj) : call nodemap
| FeaturePersistence_Load (path : string) (nm : nodemap) (validate : bool) : call unit
| StartGrabbing (cam : camera_obj) (s : grab_strategy) : call unit
| StopGrabbing (cam : camera_obj) : call unit
| ImageFormatConverter : call converter_obj
| SetOutputPixelFormat (cv : converter_obj) (p : pixel_type) : call unit
| SetOutputBitAlignment (cv : converter_obj) (a : bit_alignment) : call unit
| RetrieveResult (cam : camera_obj) (timeout : Z) (h : option timeout_handling) : call grab_result
| GrabSucceeded (gr : grab_result) : call bool
| ErrorCode (gr : grab_result) : call Z
| ErrorDescription (gr : grab_result) : call string
| Release (gr : grab_result) : call unit
| Convert (cv : converter_obj) (gr : grab_result) : call pylon_image
| GetArray (img : pylon_image) : call ndarray
| IsWritable (cam : camera_obj) (f : field) : call bool
| GetMin (cam : camera_obj) (f : field) : call Z
| GetMax (cam : camera_obj) (f : field) : call Z
| SetValue (cam : camera_obj) (f : field) (v : Z) : call unit
| PylonImage : call pylon_image
| AttachGrabResultBuffer (img : pylon_image) (gr : grab_result) : call unit
| Save (img : pylon_image) (fmt : image_file_format) (filename : string) : call unit
| ImageRelease (img : pylon_image) : call unit
| GetDescription (e : exn) : call string
| what (e : exn) : call string.

(** A call together with the answer it got. *)
Inductive event := Ev (R : Type) (c : call R) (r : outcome R).
Arguments Ev {R} c r.

(** One argument of a [print] call. *)
Inductive printed := PStr (s : string) | PInt (z : Z).

(** ** The monad

    A world is the device state, the log of SDK calls made so far (each with
    the device state it was issued in) and the lines printed so far.  A raised
    exception keeps the world: nothing is rolled back. *)

Section Monad.
Context {Dev : Type}.

Definition handler := forall R : Type, call R -> Dev -> outcome R * Dev.

Record step := Step { before : Dev; made : event }.

Record world := World { dev : Dev; log : list step; stdout : list (list printed) }.

Definition M (A : Type) := world -> outcome A * world.

Definition ret {A} (a : A) : M A := fun w => (Returned a, w).

Definition raise {A} (e : exn) : M A := fun w => (Raised e, w).

Definition bind {A B} (m : M A) (k : A -> M B) : M B :=
  fun w =>
    match m w with
    | (Returned a, w') => k a w'
    | (Raised e, w') => (Raised e, w')
    end.

(** [try: body except genicam.GenericException as e: handle e] *)
Definition try_except {A} (body : M A) (handle : exn -> M A) : M A :=
  fun w =>
    match body w with
    | (Returned a, w') => (Returned a, w')
    | (Raised e, w') =>
        if is_GenericException e then handle e w' else (Raised e, w')
    end.

(** [try: body finally: cleanup]; an exception of the cleanup replaces the one
    of the body. *)
Definition finally {A} (body : M A) (cleanup : M unit) : M A :=
  fun w =>
    match body w with
    | (r, w') =>
        match cleanup w' with
        | (Returned _, w'') => (r, w'')
        | (Raised e, w'') => (Raised e, w'')
        end
    end.

Definition print (line : list printed) : M unit :=
  fun w => (Returned tt, World (dev w) (log w) (stdout w ++ [line])).

Variable sdk : handler.

Definition invoke {R} (c : call R) : M R :=
  fun w =>
    match sdk R c (dev w) with
    | (r, d') => (r, World d' (log w ++ [Step (dev w) (Ev c r)]) (stdout w))
    end.

Definition start (d : Dev) : world := World d [] [].

Definition run {A} (m : M A) (d : Dev) : outcome A * world := m (start d).

End Monad.

Arguments handler Dev : clear implicits.
Arguments step Dev : clear implicits.
Arguments world Dev : clear implicits.
Arguments M Dev A : clear implicits.

Declare Scope py_scope.
Delimit Scope py_scope with py.
Notation "x <- m ;; k" := (bind m (fun x => k))
  (at level 61, m at next level, right associativity) : py_scope.
Notation "m ;; k" := (bind m (fun _ => k))
  (at level 61, right associativity) : py_scope.
Local Open Scope py_scope.

(** ** The wrappers

    Each definition follows the Python function of the same name line by
    line.  Arguments of a call are evaluated left to right, so an SDK call in
    argument position comes before the call it is an argument of. *)

(** A local variable of a Python function: assigned or not yet. *)
Inductive local (A : Type) :=
| Unbound
| Bound (a : A).
Arguments Unbound {A}.
Arguments Bound {A} a.

(** How a block inside a function ends: by a [return] statement of the
    function, or by running off its end with the locals it assigned. *)
Inductive flow (V L : Type) :=
| Return (v : V)
| Next (locals : L).
Arguments Return {V L} v.
Arguments Next {V L} locals.

(** The message of the configuration error.  The source splits the literal
    over two lines with a backslash, which keeps the indentation of the
    second line inside the string. *)
Definition could_not_apply (msg : string) : string :=
  ("Could not apply configuration. GenICam::GenericException "
   ++ "                                        caught in OnOpened method msg="
   ++ msg)%string.

Section Wrappers.
Context {Dev : Type} (sdk : handler Dev).

Definition read_local {A} (name : string) (v : local A) : M Dev A :=
  match v with
  | Bound a => ret a
  | Unbound => raise (UnboundLocalError name)
  end.

(** [with result: body]: pypylon's grab result is its own context manager;
    entering returns the result itself and leaving calls [Release()] on it
    and lets an exception of the body pass. *)
Definition with_GrabResult {A} (result : grab_result) (body : M Dev A) : M Dev A :=
  finally body (invoke sdk (Release result)).

Definition create_simple_camera (config_file_dir : string) : M Dev camera_obj :=
  tl <- invoke sdk TlFactory_GetInstance ;;
  dv <- invoke sdk (CreateFirstDevice tl) ;;
  camera <- invoke sdk (InstantCamera dv) ;;
  di <- invoke sdk (GetDeviceInfo camera) ;;
  name <- invoke sdk (GetModelName di) ;;
  print [PStr "Using device "; PStr name] ;;
  invoke sdk (Open camera) ;;
  print [PStr "Reading file back to camera's node map..."] ;;
  nm <- invoke sdk (GetNodeMap camera) ;;
  invoke sdk (FeaturePersistence_Load config_file_dir nm true) ;;
  ret camera.

Definition change_feature_map (camera : camera_obj) (config_file_dir : string) : M Dev camera_obj :=
  nm <- invoke sdk (GetNodeMap camera) ;;
  invoke sdk (FeaturePersistence_Load config_file_dir nm true) ;;
  ret camera.

Definition start_imaging (camera : camera_obj) : M Dev unit :=
  invoke sdk (StartGrabbing camera GrabStrategy_LatestImageOnly).

Definition stop_imaging (camera : camera_obj) : M Dev unit :=
  invoke sdk (StopGrabbing camera).

Definition close_camera (camera : camera_obj) : M Dev unit :=
  invoke sdk (Close camera).

Definition opencv_converter : M Dev converter_obj :=
  converter <- invoke sdk ImageFormatConverter ;;
  invoke sdk (SetOutputPixelFormat converter PixelType_BGR8packed) ;;
  invoke sdk (SetOutputBitAlignment converter OutputBitAlignment_MsbAligned) ;;
  ret converter.

(** The result is [None] for Python's [None] and [Some img] for an array. *)
Definition take_one_opencv_image (camera : camera_obj) (converter : converter_obj)
  : M Dev (option ndarray) :=
  blk <- try_except
           (grabResult <- invoke sdk (RetrieveResult camera 5000
                                        (Some TimeoutHandling_ThrowException)) ;;
            ok <- invoke sdk (GrabSucceeded grabResult) ;;
            img <- (if ok : bool then
                      image <- invoke sdk (Convert converter grabResult) ;;
                      img <- invoke sdk (GetArray image) ;;
                      ret (Bound img)
                    else
                      code <- invoke sdk (ErrorCode grabResult) ;;
                      descr <- invoke sdk (ErrorDescription grabResult) ;;
                      print [PStr "Error: "; PInt code; PStr descr] ;;
                      ret Unbound) ;;
            invoke sdk (Release grabResult) ;;
            ret (Next img))
           (fun e =>
              print [PStr "An exception occurred."] ;;
              description <- invoke sdk (GetDescription e) ;;
              print [PStr description] ;;
              ret (Return None)) ;;
  match blk with
  | Return v => ret v
  | Next img => a <- read_local "img" img ;; ret (Some a)
  end.

Definition change_ROI (camera : camera_obj) (dimensions offsets : Z * Z) : M Dev camera_obj :=
  try_except
    (invoke sdk (SetValue camera Width (fst dimensions)) ;;
     invoke sdk (SetValue camera Height (snd dimensions)) ;;
     wx <- invoke sdk (IsWritable camera OffsetX) ;;
     (if wx : bool
      then invoke sdk (SetValue camera OffsetX (fst offsets))
      else ret tt) ;;
     wy <- invoke sdk (IsWritable camera OffsetY) ;;
     (if wy : bool
      then invoke sdk (SetValue camera OffsetY (snd offsets))
      else ret tt))
    (fun e =>
       msg <- invoke sdk (what e) ;;
       raise (RuntimeException (could_not_apply msg))) ;;
  ret camera.

Definition max_ROI (camera : camera_obj) : M Dev camera_obj :=
  try_except
    (wx <- invoke sdk (IsWritable camera OffsetX) ;;
     (if wx : bool
      then m <- invoke sdk (GetMin camera OffsetX) ;;
           invoke sdk (SetValue camera OffsetX m)
      else ret tt) ;;
     wy <- invoke sdk (IsWritable camera OffsetY) ;;
     (if wy : bool
      then m <- invoke sdk (GetMin camera OffsetY) ;;
           invoke sdk (SetValue camera OffsetY m)
      else ret tt) ;;
     mw <- invoke sdk (GetMax camera Width) ;;
     invoke sdk (SetValue camera Width mw) ;;
     mh <- invoke sdk (GetMax camera Height) ;;
     invoke sdk (SetValue camera Height mh))
    (fun e =>
       msg <- invoke sdk (what e) ;;
       raise (RuntimeException (could_not_apply msg))) ;;
  ret camera.

Definition capture_and_save_png (camera : camera_obj) (filename : string) : M Dev unit :=
  img <- invoke sdk PylonImage ;;
  result <- invoke sdk (RetrieveResult camera 5000 None) ;;
  with_GrabResult result
    (invoke sdk (AttachGrabResultBuffer img result) ;;
     invoke sdk (Save img ImageFileFormat_Png filename) ;;
     invoke sdk (ImageRelease img)) ;;
  ret tt.

End Wrappers.

(** ** Reading a log *)

Definition calls {Dev} (w : world Dev) : list event := map made (log w).

(** The grab result a successful retrieval handed out. *)
Definition retrieved_by (e : event) : list grab_result :=
  match e with
  | Ev c r =>
      match c in call R return outcome R -> list grab_result with
      | RetrieveResult _ _ _ =>
          fun r => match r with Returned gr => [gr] | Raised _ => [] end
      | _ => fun _ => []
      end r
  end.

(** The timeout and timeout handling of a retrieval request. *)
Definition retrieval_of (e : event) : list (Z * option timeout_handling) :=
  match e with
  | Ev c _ => match c with RetrieveResult _ t h => [(t, h)] | _ => [] end
  end.

(** The grab result a [Release()] was called on, by hand or on leaving a
    [with] block. *)
Definition released_by (e : event) : list grab_result :=
  match e with
  | Ev c _ => match c with Release gr => [gr] | _ => [] end
  end.

(** Questions about the status of a grab result. *)
Definition status_check (e : event) : bool :=
  match e with
  | Ev c _ =>
      match c with
      | GrabSucceeded _ | ErrorCode _ | ErrorDescription _ => true
      | _ => false
      end
  end.

(** An attempted assignment to a node, with what the device answered. *)
Definition assignment_of (e : event) : list (field * Z * outcome unit) :=
  match e with
  | Ev c r =>
      match c in call R return outcome R -> list (field * Z * outcome unit) with
      | SetValue _ f v => fun r => [(f, v, r)]
      | _ => fun _ => []
      end r
  end.

(** Whether the event is the device reporting node [f] as writable. *)
Definition reports_writable (f : field) (e : event) : bool :=
  match e with
  | Ev c r =>
      match c in call R return outcome R -> bool with
      | IsWritable _ g =>
          fun r => match r with Returned b => field_eqb g f && b | Raised _ => false end
      | _ => fun _ => false
      end r
  end.

(** The minimum, respectively maximum, the device reported for node [f]. *)
Definition reported_min_by (f : field) (e : event) : list Z :=
  match e with
  | Ev c r =>
      match c in call R return outcome R -> list Z with
      | GetMin _ g =>
          fun r => match r with Returned m => if field_eqb g f then [m] else [] | Raised _ => [] end
      | _ => fun _ => []
      end r
  end.


Definition reported_min (f : field) (evs : list event) : list Z := flat_map (reported_min_by f) evs.
(** An image object taking hold of the buffer of a grab result, with what
    the SDK answered; and a file save. *)
Definition attachment_of (e : event) : list (pylon_image * grab_result * outcome unit) :=
  match e with
  | Ev c r =>
      match c in call R return outcome R -> list (pylon_image * grab_result * outcome unit) with
      | AttachGrabResultBuffer img gr => fun r => [(img, gr, r)]
      | _ => fun _ => []
      end r
  end.

Definition save_of (e : event) : list (pylon_image * image_file_format * string) :=
  match e with
  | Ev c _ => match c with Save img fmt filename => [(img, fmt, filename)] | _ => [] end
  end.

Definition attachments (evs : list event) := flat_map attachment_of evs.
Definition saves (evs : list event) := flat_map save_of evs.
Definition retrieved (evs : list event) : list grab_result := flat_map retrieved_by evs.
Definition retrievals (evs : list event) := flat_map retrieval_of evs.
Definition released (evs : list event) : list grab_result := flat_map released_by evs.
Definition assignments (evs : list event) := flat_map assignment_of evs.
Definition assigned (evs : list event) : list (field * Z) := map fst (assignments evs).
Definition writable (f : field) (evs : list event) : bool := existsb (reports_writable f) evs.

Definition is_offset (f : field) : bool :=
  match f with OffsetX | OffsetY => true | Width | Height => false end.


(** [in_two_phases first fs]: every field of [fs] that satisfies [first] comes
    before every field that does not. *)
Fixpoint in_two_phases (first : field -> bool) (fs : list field) : bool :=
  match fs with
  | [] => true
  | f :: rest =>
      if first f then in_two_phases first rest
      else forallb (fun g => negb (first g)) rest
  end.

(** [l1] is an initial segment of [l2]. *)
Definition initial_segment {A} (l1 l2 : list A) : Prop := exists rest, l2 = l1 ++ rest.


(** The direction a node belongs to, named by its size node. *)
Definition axis (f : field) : field :=
  match f with
  | Width | OffsetX => Width
  | Height | OffsetY => Height
  end.

(** Offset assignments of a log, each with the device state it was issued in. *)
Definition offset_write {Dev} (s : step Dev) : list (Dev * field * Z) :=
  match made s with
  | Ev c _ =>
      match c with
      | SetValue _ f v => if is_offset f then [(before s, f, v)] else []
      | _ => []
      end
  end.

Definition offset_writes {Dev} (l : list (step Dev)) : list (Dev * field * Z) :=
  flat_map offset_write l.

(** [load_follows_open opened evs]: every configuration load of [evs] comes
    after an [Open] that returned, where [opened] tells whether one came
    before [evs]. *)
Fixpoint load_follows_open (opened : bool) (evs : list event) : bool :=
  match evs with
  | [] => true
  | Ev c r :: rest =>
      match c in call R return outcome R -> bool with
      | Open _ =>
          fun r =>
            match r with
            | Returned _ => load_follows_open true rest
            | Raised _ => load_follows_open opened rest
            end
      | FeaturePersistence_Load _ _ _ => fun _ => opened && load_follows_open opened rest
      | _ => fun _ => load_follows_open opened rest
      end r
  end.

(** The exception with which the SDK answered a call of the given kind, if
    it raised. *)
Definition failure_of (kind : forall R, call R -> bool) (e : event) : list exn :=
  match e with
  | Ev c (Raised x) => if kind _ c then [x] else []
  | Ev _ (Returned _) => []
  end.

Definition is_enumeration R (c : call R) : bool :=
  match c with CreateFirstDevice _ => true | _ => false end.
Definition is_load R (c : call R) : bool :=
  match c with FeaturePersistence_Load _ _ _ => true | _ => false end.
Definition is_open R (c : call R) : bool :=
  match c with Open _ => true | _ => false end.
Definition is_retrieval R (c : call R) : bool :=
  match c with RetrieveResult _ _ _ => true | _ => false end.
Definition is_save R (c : call R) : bool :=
  match c with Save _ _ _ => true | _ => false end.
Definition is_release R (c : call R) : bool :=
  match c with Release _ => true | _ => false end.
Definition any_call R (c : call R) : bool := true.

Definition failures (kind : forall R, call R -> bool) (evs : list event) : list exn :=
  flat_map (failure_of kind) evs.

Definition attempted (kind : forall R, call R -> bool) (evs : list event) : bool :=
  existsb (fun e => match e with Ev c _ => kind _ c end) evs.

(** More kinds of calls: the questions and conversions [take_one_opencv_image]
    makes between retrieving a result and releasing it, the release of an
    image object, the attachment of a buffer, and the closing of a camera. *)
Definition is_inspection R (c : call R) : bool :=
  match c with
  | GrabSucceeded _ | ErrorCode _ | ErrorDescription _ | Convert _ _ | GetArray _ => true
  | _ => false
  end.
Definition is_image_release R (c : call R) : bool :=
  match c with ImageRelease _ => true | _ => false end.
Definition is_attachment R (c : call R) : bool :=
  match c with AttachGrabResultBuffer _ _ => true | _ => false end.
Definition is_close R (c : call R) : bool :=
  match c with Close _ => true | _ => false end.

(** Whether a call of the given kind was made and returned. *)
Definition answered_ok (kind : forall R, call R -> bool) (evs : list event) : bool :=
  existsb (fun e => match e with
                    | Ev c (Returned _) => kind _ c
                    | Ev _ (Raised _) => false
                    end) evs.

(** The exception objects asked for their description, respectively for
    their [what()], each with the answer. *)
Definition description_of (e : event) : list (exn * outcome string) :=
  match e with
  | Ev c r =>
      match c in call R return outcome R -> list (exn * outcome string) with
      | GetDescription x => fun r => [(x, r)]
      | _ => fun _ => []
      end r
  end.

Definition what_of (e : event) : list (exn * outcome string) :=
  match e with
  | Ev c r =>
      match c in call R return outcome R -> list (exn * outcome string) with
      | what x => fun r => [(x, r)]
      | _ => fun _ => []
      end r
  end.

Definition descriptions_asked (evs : list event) := flat_map description_of evs.
Definition whats_asked (evs : list event) := flat_map what_of evs.

(** Calls made inside a [try] block, as opposed to the calls on the caught
    exception object made by the [except] clause. *)
Definition in_try R (c : call R) : bool :=
  match c with
  | GetDescription _ | what _ => false
  | _ => true
  end.

(** What the [except] clause of [change_ROI] and [max_ROI] raises, given the
    answer to [e.what()]: the configuration error built from the message, or
    what the method call itself raised. *)
Definition configuration_error (answer : outcome string) : exn :=
  match answer with
  | Returned msg => RuntimeException (could_not_apply msg)
  | Raised x => x
  end.

(** ** What the region-of-interest statements assume of a device

    The wrappers only issue calls; what an assignment does to the region is
    the device's business.  The statements about the region after [max_ROI]
    are made for every device whose node map behaves like one: questions
    about a node change no value, and an accepted assignment changes the value
    of its node and of no other. *)

Section Laws.
Context {Dev : Type} (sdk : handler Dev) (value : field -> Dev -> Z).

Record node_map_laws : Prop := {
  is_writable_reads :
    forall cam f d g, value g (snd (sdk _ (IsWritable cam f) d)) = value g d;
  get_min_reads :
    forall cam f d g, value g (snd (sdk _ (GetMin cam f) d)) = value g d;
  get_max_reads :
    forall cam f d g, value g (snd (sdk _ (GetMax cam f) d)) = value g d;
  set_value_writes :
    forall cam f v d d',
      sdk _ (SetValue cam f v) d = (Returned tt, d') ->
      value f d' = v /\ forall g, g <> f -> value g d' = value g d
}.

(** An offset [v] of node [f] keeps the region inside a sensor of extent
    [sensor] in the state [d]. *)
Definition within_sensor (sensor : field -> Z) (f : field) (v : Z) (d : Dev) : Prop :=
  0 <= v /\ v + value (axis f) d <= sensor (axis f).

(** A device keeps an invariant [wf] of its states, and in a state that
    satisfies it the minimum it reports for an offset fits the current size. *)
Record sensor_laws (sensor : field -> Z) (wf : Dev -> Prop) : Prop := {
  wf_preserved : forall R (c : call R) d, wf d -> wf (snd (sdk R c d));
  min_offset_fits :
    forall cam f d m,
      wf d -> is_offset f = true ->
      fst (sdk _ (GetMin cam f) d) = Returned m ->
      within_sensor sensor f m d
}.

(** The region of state [d] is the full frame: both offsets equal the minimum
    the device reports for them, and width and height the maximum. *)
Definition maximized (cam : camera_obj) (d : Dev) : Prop :=
  fst (sdk _ (GetMin cam OffsetX) d) = Returned (value OffsetX d) /\
  fst (sdk _ (GetMin cam OffsetY) d) = Returned (value OffsetY d) /\
  fst (sdk _ (GetMax cam Width) d) = Returned (value Width d) /\
  fst (sdk _ (GetMax cam Height) d) = Returned (value Height d).

(** A rejected assignment changes no value, and neither does asking an
    exception object what it says. *)
Definition rejection_keeps : Prop :=
  (forall cam f v d e d' g,
      sdk _ (SetValue cam f v) d = (Raised e, d') -> value g d' = value g d) /\
  (forall e d g, value g (snd (sdk _ (what e) d)) = value g d).

End Laws.

(** ** A bench camera

    A device to run the wrappers on: one camera with a rectangular sensor, a
    region of interest kept inside it, offsets that can be locked, a frame
    waiting to be retrieved (or none, and the retrieval times out), and a disk
    that accepts files or not.  Its exception objects are plain Python
    exceptions: they have neither [GetDescription] nor [what], and calling
    either raises [AttributeError]. *)

Module Sim.

Record frame := Frame {
  succeeded : bool;
  error_code : Z;
  error_description : string;
  decodable : bool;
  pixels : ndarray
}.

Record state := State {
  attached : bool;
  opened : bool;
  parseable : list string;
  loaded : list string;
  sensor_w : Z;
  sensor_h : Z;
  roi : field -> Z;
  locked : field -> bool;
  pending : option frame;
  held : nat;
  disk_ok : bool;
  saved : list string
}.

Definition with_opened (b : bool) (s : state) : state :=
  State (attached s) b (parseable s) (loaded s) (sensor_w s) (sensor_h s)
        (roi s) (locked s) (pending s) (held s) (disk_ok s) (saved s).

Definition with_loaded (l : list string) (s : state) : state :=
  State (attached s) (opened s) (parseable s) l (sensor_w s) (sensor_h s)
        (roi s) (locked s) (pending s) (held s) (disk_ok s) (saved s).

Definition with_roi (f : field) (v : Z) (s : state) : state :=
  State (attached s) (opened s) (parseable s) (loaded s) (sensor_w s) (sensor_h s)
        (fun g => if field_eqb g f then v else roi s g)
        (locked s) (pending s) (held s) (disk_ok s) (saved s).

Definition with_locked (f : field) (s : state) : state :=
  State (attached s) (opened s) (parseable s) (loaded s) (sensor_w s) (sensor_h s)
        (roi s) (fun g => if field_eqb g f then true else locked s g)
        (pending s) (held s) (disk_ok s) (saved s).

Definition with_pending (p : option frame) (s : state) : state :=
  State (attached s) (opened s) (parseable s) (loaded s) (sensor_w s) (sensor_h s)
        (roi s) (locked s) p (held s) (disk_ok s) (saved s).

Definition with_held (n : nat) (s : state) : state :=
  State (attached s) (opened s) (parseable s) (loaded s) (sensor_w s) (sensor_h s)
        (roi s) (locked s) (pending s) n (disk_ok s) (saved s).

Definition with_disk (b : bool) (s : state) : state :=
  State (attached s) (opened s) (parseable s) (loaded s) (sensor_w s) (sensor_h s)
        (roi s) (locked s) (pending s) (held s) b (saved s).

Definition with_saved (l : list string) (s : state) : state :=
  State (attached s) (opened s) (parseable s) (loaded s) (sensor_w s) (sensor_h s)
        (roi s) (locked s) (pending s) (held s) (disk_ok s) l.

Definition unplugged (s : state) : state :=
  State false (opened s) (parseable s) (loaded s) (sensor_w s) (sensor_h s)
        (roi s) (locked s) (pending s) (held s) (disk_ok s) (saved s).

Definition sensor (s : state) (f : field) : Z :=
  match axis f with
  | Height => sensor_h s
  | _ => sensor_w s
  end.

(** The node of the same direction: the offset of a size, the size of an offset. *)
Definition partner (f : field) : field :=
  match f with
  | Width => OffsetX
  | Height => OffsetY
  | OffsetX => Width
  | OffsetY => Height
  end.

Definition minimum (f : field) : Z := if is_offset f then 0 else 1.

Definition maximum (s : state) (f : field) : Z := sensor s f - roi s (partner f).

Definition timed_out : exn :=
  GenericException "Grab timed out." "Grab timed out. : TimeoutException thrown".
Definition no_device : exn :=
  GenericException "No device is available." "No device is available. : RuntimeException thrown".
Definition not_parsed : exn :=
  GenericException "Cannot read the feature file." "Cannot read the feature file. : RuntimeException thrown".
Definition not_writable : exn :=
  GenericException "Node is not writable." "Node is not writable. : AccessException thrown".
Definition out_of_range : exn :=
  GenericException "Value is out of range." "Value is out of range. : OutOfRangeException thrown".
Definition not_convertible : exn :=
  GenericException "Cannot convert the image." "Cannot convert the image. : RuntimeException thrown".
Definition not_saved : exn :=
  GenericException "Cannot write the file." "Cannot write the file. : RuntimeException thrown".
Definition no_result : exn := PythonError "RuntimeError".
Definition attribute_error : exn := PythonError "AttributeError".

Definition the_frame {A} (s : state) (k : frame -> outcome A * state) : outcome A * state :=
  match pending s with
  | Some f => k f
  | None => (Raised no_result, s)
  end.

Definition sdk : handler state :=
  fun R c =>
    match c in call R return state -> outcome R * state with
    | TlFactory_GetInstance => fun s => (Returned (TlFactory 0), s)
    | CreateFirstDevice _ =>
        fun s => if attached s then (Returned (Device 0), s) else (Raised no_device, s)
    | InstantCamera _ => fun s => (Returned (Camera 0), s)
    | GetDeviceInfo _ => fun s => (Returned (DeviceInfo 0), s)
    | GetModelName _ => fun s => (Returned "acA1920-40uc", s)
    | Open _ => fun s => (Returned tt, with_opened true s)
    | Close _ => fun s => (Returned tt, with_opened false s)
    | GetNodeMap _ => fun s => (Returned (NodeMap 0), s)
    | FeaturePersistence_Load path _ _ =>
        fun s =>
          if existsb (String.eqb path) (parseable s)
          then (Returned tt, with_loaded (loaded s ++ [path]) s)
          else (Raised not_parsed, s)
    | StartGrabbing _ _ => fun s => (Returned tt, s)
    | StopGrabbing _ => fun s => (Returned tt, s)
    | ImageFormatConverter => fun s => (Returned (Converter 0), s)
    | SetOutputPixelFormat _ _ => fun s => (Returned tt, s)
    | SetOutputBitAlignment _ _ => fun s => (Returned tt, s)
    | RetrieveResult _ _ _ =>
        fun s =>
          match pending s with
          | Some _ => (Returned (GrabResult 0), with_held (S (held s)) s)
          | None => (Raised timed_out, s)
          end
    | GrabSucceeded _ => fun s => the_frame s (fun f => (Returned (succeeded f), s))
    | ErrorCode _ => fun s => the_frame s (fun f => (Returned (error_code f), s))
    | ErrorDescription _ => fun s => the_frame s (fun f => (Returned (error_description f), s))
    | Release _ => fun s => (Returned tt, with_held (pred (held s)) s)
    | Convert _ _ =>
        fun s =>
          the_frame s (fun f =>
            if decodable f then (Returned (PylonImageObj 1), s)
            else (Raised not_convertible, s))
    | GetArray _ => fun s => the_frame s (fun f => (Returned (pixels f), s))
    | IsWritable _ f => fun s => (Returned (negb (locked s f)), s)
    | GetMin _ f => fun s => (Returned (minimum f), s)
    | GetMax _ f => fun s => (Returned (maximum s f), s)
    | SetValue _ f v =>
        fun s =>
          if locked s f then (Raised not_writable, s)
          else if (minimum f <=? v) && (v <=? maximum s f)
               then (Returned tt, with_roi f v s)
               else (Raised out_of_range, s)
    | PylonImage => fun s => (Returned (PylonImageObj 0), s)
    | AttachGrabResultBuffer _ _ => fun s => (Returned tt, with_held (S (held s)) s)
    | Save _ _ filename =>
        fun s =>
          if disk_ok s then (Returned tt, with_saved (saved s ++ [filename]) s)
          else (Raised not_saved, s)
    | ImageRelease _ => fun s => (Returned tt, with_held (pred (held s)) s)
    | GetDescription _ => fun s => (Raised attribute_error, s)
    | what _ => fun s => (Raised attribute_error, s)
    end.

(** The region lies inside the sensor. *)
Definition wf (s : state) : Prop :=
  0 <= roi s OffsetX /\ 1 <= roi s Width /\ roi s OffsetX + roi s Width <= sensor_w s /\
  0 <= roi s OffsetY /\ 1 <= roi s Height /\ roi s OffsetY + roi s Height <= sensor_h s.

Definition good_frame : frame :=
  Frame true 0 "" true (NdArray 2 2 [10; 20; 30; 40]).

Definition failed_frame : frame :=
  Frame false 3774873620 "The buffer was incompletely grabbed." true (NdArray 0 0 []).

Definition undecodable_frame : frame :=
  Frame true 0 "" false (NdArray 2 2 [10; 20; 30; 40]).

(** A camera on the bench: a 1920 by 1200 sensor, a 640 by 480 region at
    (16, 8), a good frame waiting. *)
Definition bench : state :=
  State true false ["acA1920.pfs"] [] 1920 1200
        (fun f => match f with Width => 640 | Height => 480 | OffsetX => 16 | OffsetY => 8 end)
        (fun _ => false) (Some good_frame) 0 true [].

Definition value (f : field) (s : state) : Z := roi s f.

(** The states of a device with the bench camera's sensor and a region inside it. *)
Definition on_bench (s : state) : Prop :=
  wf s /\ sensor_w s = sensor_w bench /\ sensor_h s = sensor_h bench.

(** The bench camera in the situations the statements below are tried in. *)
Definition timeout_bench : state := with_pending None bench.
Definition failed_bench : state := with_pending (Some failed_frame) bench.
Definition undecodable_bench : state := with_pending (Some undecodable_frame) bench.
Definition locked_y_bench : state := with_locked OffsetY bench.
Definition locked_width_bench : state := with_locked Width bench.

Definition cam : camera_obj := Camera 0.
Definition conv : converter_obj := Converter 0.

(** No node is locked. *)
Definition unlocked (s : state) : Prop := forall f, locked s f = false.

(** The requests [change_ROI] gets through on an unlocked camera in state
    [s]: the sizes must fit beside the offsets of [s], the offsets beside the
    new sizes. *)
Definition accepts (s : state) (dimensions offsets : Z * Z) : Prop :=
  1 <= fst dimensions <= sensor_w s - roi s OffsetX /\
  1 <= snd dimensions <= sensor_h s - roi s OffsetY /\
  0 <= fst offsets <= sensor_w s - fst dimensions /\
  0 <= snd offsets <= sensor_h s - snd dimensions.

(** A rectangle inside the sensor. *)
Definition inside_sensor (s : state) (dimensions offsets : Z * Z) : Prop :=
  1 <= fst dimensions /\ 0 <= fst offsets /\ fst offsets + fst dimensions <= sensor_w s /\
  1 <= snd dimensions /\ 0 <= snd offsets /\ snd offsets + snd dimensions <= sensor_h s.

End Sim.

(** * Proofs *)

(** ** Running a wrapper against an arbitrary SDK

    [pyrun] unfolds the monad down to the handler; [answered] splits on what
    the handler answers to the next call, on whether a raised exception is a
    genicam one, and on a reported boolean; [follow] takes the answers from
    the hypotheses instead. *)

Ltac pyrun :=
  cbv [run start with_GrabResult finally try_except bind invoke print ret raise read_local];
  cbn [dev log stdout fst snd app].

Ltac answered sdk :=
  repeat
    (first
       [ match goal with
         | |- context [sdk ?R ?c ?d] =>
             let H := fresh "Hsdk" in
             destruct (sdk R c d) as [[?|?] ?] eqn:H
         end
       | match goal with
         | |- context [if is_GenericException ?e then _ else _] =>
             let H := fresh "Hgen" in
             destruct (is_GenericException e) eqn:H
         end
       | match goal with
         | |- context [if ?b then _ else _] => is_var b; destruct b
         | |- context [match ?u with tt => _ end] => is_var u; destruct u
         end ];
     cbn [dev log stdout fst snd app]).

Ltac follow sdk :=
  repeat
    (match goal with
     | H : sdk _ _ _ = _ |- _ => rewrite H
     | H : is_GenericException _ = _ |- _ => rewrite H
     end;
     cbn [dev log stdout fst snd app]).

Section Capture.
Context {Dev : Type} (sdk : handler Dev).

(** C5, with the input where it fails: [take_one_opencv_image] asks for one
    grab result, once, with the fixed timeout of 5000 and the request to
    raise on expiry.  When that retrieval raises a genicam exception, the
    wrapper catches it, prints "An exception occurred." and asks the
    exception object for its description.  If the object answers, the
    description is printed and [None] returned.  If the method call raises,
    as it does on an exception object that has no [GetDescription], that
    exception reaches the caller and nothing more is printed. *)
Theorem take_one_retrieval_exception :
  forall camera converter d,
    retrievals (calls (snd (run (take_one_opencv_image sdk camera converter) d)))
    = [(5000, Some TimeoutHandling_ThrowException)] /\
    forall e d',
      sdk _ (RetrieveResult camera 5000 (Some TimeoutHandling_ThrowException)) d
      = (Raised e, d') ->
      is_GenericException e = true ->
      (forall description d'',
          sdk _ (GetDescription e) d' = (Returned description, d'') ->
          run (take_one_opencv_image sdk camera converter) d
          = (Returned None,
             World d''
                   [Step d (Ev (RetrieveResult camera 5000
                                  (Some TimeoutHandling_ThrowException)) (Raised e));
                    Step d' (Ev (GetDescription e) (Returned description))]
                   [[PStr "An exception occurred."]; [PStr description]])) /\
      (forall x d'',
          sdk _ (GetDescription e) d' = (Raised x, d'') ->
          run (take_one_opencv_image sdk camera converter) d
          = (Raised x,
             World d''
                   [Step d (Ev (RetrieveResult camera 5000
                                  (Some TimeoutHandling_ThrowException)) (Raised e));
                    Step d' (Ev (GetDescription e) (Raised x))]
                   [[PStr "An exception occurred."]])).
Proof.
  intros camera converter d. split.
  - unfold take_one_opencv_image. pyrun. answered sdk; reflexivity.
  - intros e d' Hret Hgen. split.
    + intros description d'' Hdescr. unfold take_one_opencv_image. pyrun. follow sdk.
      reflexivity.
    + intros x d'' Hdescr. unfold take_one_opencv_image. pyrun. follow sdk.
      reflexivity.
Qed.

(** C1, at the input where it fails: the retrieval hands out a grab result,
    the result reports success, and the conversion raises.  Control leaves
    the [try] body of [take_one_opencv_image] before the [Release()] after
    the branch, and nothing that follows, in the [except] clause or after
    it, releases anything: one result retrieved, none released, whatever the
    SDK answers from there on. *)
Theorem take_one_conversion_exception_skips_release :
  forall camera converter d gr d1 d2 e d3,
    sdk _ (RetrieveResult camera 5000 (Some TimeoutHandling_ThrowException)) d
    = (Returned gr, d1) ->
    sdk _ (GrabSucceeded gr) d1 = (Returned true, d2) ->
    sdk _ (Convert converter gr) d2 = (Raised e, d3) ->
    retrieved (calls (snd (run (take_one_opencv_image sdk camera converter) d))) = [gr] /\
    released (calls (snd (run (take_one_opencv_image sdk camera converter) d))) = [].
Proof.
  intros camera converter d gr d1 d2 e d3 Hret Hok Hconv.
  unfold take_one_opencv_image. pyrun. follow sdk.
  answered sdk; split; reflexivity.
Qed.

(** C2, at the input where it fails: the retrieval hands out a grab result
    that reports failure.  The wrapper prints "Error: " with the error code
    and description and releases the result, but the [else] branch never
    assigns [img], so the final [return img] raises [UnboundLocalError] to the
    caller instead of returning [None]. *)
Theorem take_one_failed_grab_raises :
  forall camera converter d gr d1 d2 code d3 descr d4 d5,
    sdk _ (RetrieveResult camera 5000 (Some TimeoutHandling_ThrowException)) d
    = (Returned gr, d1) ->
    sdk _ (GrabSucceeded gr) d1 = (Returned false, d2) ->
    sdk _ (ErrorCode gr) d2 = (Returned code, d3) ->
    sdk _ (ErrorDescription gr) d3 = (Returned descr, d4) ->
    sdk _ (Release gr) d4 = (Returned tt, d5) ->
    fst (run (take_one_opencv_image sdk camera converter) d)
    = Raised (UnboundLocalError "img") /\
    stdout (snd (run (take_one_opencv_image sdk camera converter) d))
    = [[PStr "Error: "; PInt code; PStr descr]] /\
    released (calls (snd (run (take_one_opencv_image sdk camera converter) d))) = [gr].
Proof.
  intros camera converter d gr d1 d2 code d3 descr d4 d5 Hret Hok Hcode Hdescr Hrel.
  unfold take_one_opencv_image. pyrun. follow sdk. repeat split.
Qed.

(** The other half of C2 holds: a grab result that reports success and
    converts is returned as the array of the converted image, and released
    once on the way. *)
Lemma take_one_successful_grab_returns_array :
  forall camera converter d gr d1 d2 image d3 img d4 d5,
    sdk _ (RetrieveResult camera 5000 (Some TimeoutHandling_ThrowException)) d
    = (Returned gr, d1) ->
    sdk _ (GrabSucceeded gr) d1 = (Returned true, d2) ->
    sdk _ (Convert converter gr) d2 = (Returned image, d3) ->
    sdk _ (GetArray image) d3 = (Returned img, d4) ->
    sdk _ (Release gr) d4 = (Returned tt, d5) ->
    fst (run (take_one_opencv_image sdk camera converter) d) = Returned (Some img) /\
    stdout (snd (run (take_one_opencv_image sdk camera converter) d)) = [] /\
    released (calls (snd (run (take_one_opencv_image sdk camera converter) d))) = [gr].
Proof.
  intros camera converter d gr d1 d2 image d3 img d4 d5 Hret Hok Hconv Harr Hrel.
  unfold take_one_opencv_image. pyrun. follow sdk. repeat split.
Qed.

(** On no path does [take_one_opencv_image] release more than it retrieved:
    the releases of a run are none, or exactly the one retrieved result. *)
Lemma take_one_releases_at_most_once :
  forall camera converter d,
    released (calls (snd (run (take_one_opencv_image sdk camera converter) d))) = [] \/
    released (calls (snd (run (take_one_opencv_image sdk camera converter) d)))
    = retrieved (calls (snd (run (take_one_opencv_image sdk camera converter) d))).
Proof.
  intros camera converter d. unfold take_one_opencv_image. pyrun.
  answered sdk; cbn; auto.
Qed.

End Capture.

Section RegionOfInterest.
Context {Dev : Type} (sdk : handler Dev).


(** C7, with the input where it fails: when the device answers an assignment
    of [change_ROI] or of [max_ROI] with a genicam exception, the wrapper
    does not return.  Its [except] clause asks the exception object for
    [what()], once: if the object answers, the wrapper raises the
    [RuntimeException] whose message is the configuration-error text followed
    by that answer; if the method call raises, as it does on an exception
    object that has no [what], the wrapper raises that exception instead of
    the configuration error. *)
Theorem rejected_assignment_reaches_caller :
  forall camera dimensions offsets d,
    (forall f v e,
        In (f, v, Raised e)
           (assignments (calls (snd (run (change_ROI sdk camera dimensions offsets) d)))) ->
        is_GenericException e = true ->
        exists answer,
          whats_asked (calls (snd (run (change_ROI sdk camera dimensions offsets) d)))
          = [(e, answer)] /\
          fst (run (change_ROI sdk camera dimensions offsets) d)
          = Raised (configuration_error answer)) /\
    (forall f v e,
        In (f, v, Raised e) (assignments (calls (snd (run (max_ROI sdk camera) d)))) ->
        is_GenericException e = true ->
        exists answer,
          whats_asked (calls (snd (run (max_ROI sdk camera) d))) = [(e, answer)] /\
          fst (run (max_ROI sdk camera) d) = Raised (configuration_error answer)).
Proof.
  intros camera dimensions offsets d. split.
  - unfold change_ROI. pyrun.
    answered sdk; cbn; intros f v x Hin Hx;
      repeat (destruct Hin as [Hin | Hin]; [inversion Hin; subst |]);
      try contradiction; try congruence; (eexists; split; reflexivity).
  - unfold max_ROI. pyrun.
    answered sdk; cbn; intros f v x Hin Hx;
      repeat (destruct Hin as [Hin | Hin]; [inversion Hin; subst |]);
      try contradiction; try congruence; (eexists; split; reflexivity).
Qed.

(** Half of C6 needs nothing of the device: in every run of [max_ROI] all
    assignments to an offset come before all assignments to width or height. *)
Lemma max_ROI_offsets_before_sizes :
  forall camera d,
    in_two_phases is_offset (map fst (assigned (calls (snd (run (max_ROI sdk camera) d)))))
    = true.
Proof.
  intros camera d. unfold max_ROI. pyrun. answered sdk; reflexivity.
Qed.

End RegionOfInterest.

(** ** The region after [max_ROI], on a device that keeps the node-map laws *)

Section Region.
Context {Dev : Type} (sdk : handler Dev) (value : field -> Dev -> Z).
Hypothesis laws : node_map_laws sdk value.

Lemma writable_keeps cam f d r d' g :
  sdk _ (IsWritable cam f) d = (r, d') -> value g d' = value g d.
Proof.
  intros H. pose proof (is_writable_reads sdk value laws cam f d g) as K.
  rewrite H in K. exact K.
Qed.

Lemma min_keeps cam f d r d' g :
  sdk _ (GetMin cam f) d = (r, d') -> value g d' = value g d.
Proof.
  intros H. pose proof (get_min_reads sdk value laws cam f d g) as K.
  rewrite H in K. exact K.
Qed.

Lemma max_keeps cam f d r d' g :
  sdk _ (GetMax cam f) d = (r, d') -> value g d' = value g d.
Proof.
  intros H. pose proof (get_max_reads sdk value laws cam f d g) as K.
  rewrite H in K. exact K.
Qed.

Lemma assign_sets cam f v d u d' :
  sdk _ (SetValue cam f v) d = (Returned u, d') -> value f d' = v.
Proof.
  destruct u. intros H. exact (proj1 (set_value_writes sdk value laws cam f v d d' H)).
Qed.

Lemma assign_keeps cam f v d u d' g :
  sdk _ (SetValue cam f v) d = (Returned u, d') -> g <> f -> value g d' = value g d.
Proof.
  destruct u. intros H. exact (proj2 (set_value_writes sdk value laws cam f v d d' H) g).
Qed.

End Region.

(** Turns every answered call of the context into what it says about the
    values of the four nodes. *)
Ltac node_facts laws :=
  repeat
    match goal with
    | H : _ _ (IsWritable _ _) _ = _ |- _ =>
        pose proof (fun g => writable_keeps _ _ laws _ _ _ _ _ g H); clear H
    | H : _ _ (GetMin _ _) _ = _ |- _ =>
        pose proof (fun g => min_keeps _ _ laws _ _ _ _ _ g H); clear H
    | H : _ _ (GetMax _ _) _ = _ |- _ =>
        pose proof (fun g => max_keeps _ _ laws _ _ _ _ _ g H); clear H
    | H : _ _ (SetValue _ _ _) _ = (Returned _, _) |- _ =>
        pose proof (assign_sets _ _ laws _ _ _ _ _ _ H);
        pose proof (fun g => assign_keeps _ _ laws _ _ _ _ _ _ g H); clear H
    end.

Section RegionAfter.
Context {Dev : Type} (sdk : handler Dev) (value : field -> Dev -> Z).
Hypothesis laws : node_map_laws sdk value.


(** The round trip of [change_ROI]: when it returns, width and height have
    the requested values; an offset the device reported writable has the
    requested value, and one it did not report writable has the value it had
    before. *)
Lemma change_ROI_region :
  forall camera dimensions offsets d c w',
    run (change_ROI sdk camera dimensions offsets) d = (Returned c, w') ->
    value Width (dev w') = fst dimensions /\
    value Height (dev w') = snd dimensions /\
    value OffsetX (dev w')
    = (if writable OffsetX (calls w') then fst offsets else value OffsetX d) /\
    value OffsetY (dev w')
    = (if writable OffsetY (calls w') then snd offsets else value OffsetY d).
Proof.
  intros camera dimensions offsets d c w'. unfold change_ROI. pyrun.
  answered sdk; intros Hrun; inversion Hrun; subst; clear Hrun; cbn;
    node_facts laws;
    repeat match goal with
           | K : forall g, g <> ?f -> _ |- _ =>
               pose proof (K Width); pose proof (K Height);
               pose proof (K OffsetX); pose proof (K OffsetY); clear K
           end;
    repeat split;
    repeat match goal with
           | K : ?a <> ?b -> _ |- _ =>
               first [ specialize (K ltac:(discriminate)) | clear K ]
           end;
    congruence.
Qed.

End RegionAfter.

(** ** The offsets [max_ROI] writes, on a device that keeps its region inside the sensor *)

Section Sensor.
Context {Dev : Type} (sdk : handler Dev) (value : field -> Dev -> Z).
Context (sensor : field -> Z) (wf : Dev -> Prop).
Hypothesis laws : node_map_laws sdk value.
Hypothesis bounds : sensor_laws sdk value sensor wf.

Lemma wf_after R (c : call R) d r d' :
  wf d -> sdk R c d = (r, d') -> wf d'.
Proof.
  intros Hw H. pose proof (wf_preserved sdk value sensor wf bounds R c d Hw) as K.
  rewrite H in K. exact K.
Qed.

(** The minimum just reported for an offset still fits in the state the
    question left behind. *)
Lemma reported_min_fits cam f d m d' :
  wf d -> is_offset f = true ->
  sdk _ (GetMin cam f) d = (Returned m, d') ->
  within_sensor value sensor f m d'.
Proof.
  intros Hw Hf H.
  assert (within_sensor value sensor f m d) as [H0 H1].
  { apply (min_offset_fits sdk value sensor wf bounds cam f d m Hw Hf).
    rewrite H. reflexivity. }
  split; [exact H0 |].
  rewrite (min_keeps sdk value laws cam f d _ d' (axis f) H). exact H1.
Qed.

(** C6: in every run of [max_ROI] all assignments to an offset come before
    all assignments to width or height; and every value assigned to an offset
    is the minimum the device has just reported for that offset, which, with
    the width and height of the state the assignment is issued in, keeps the
    region inside the sensor. *)
Theorem max_ROI_offsets_first :
  forall camera d,
    wf d ->
    in_two_phases is_offset (map fst (assigned (calls (snd (run (max_ROI sdk camera) d)))))
    = true /\
    forall s f v,
      In (s, f, v) (offset_writes (log (snd (run (max_ROI sdk camera) d)))) ->
      is_offset f = true /\
      reported_min f (calls (snd (run (max_ROI sdk camera) d))) = [v] /\
      within_sensor value sensor f v s.
Proof.
  intros camera d Hwf. split.
  - apply max_ROI_offsets_before_sizes.
  - unfold max_ROI. pyrun.
    answered sdk; cbn; intros s f v Hin;
      repeat (destruct Hin as [Hin | Hin]; [inversion Hin; subst; clear Hin |]);
      try contradiction;
      (split; [reflexivity | split; [reflexivity |]]);
      repeat match goal with
             | Hw : wf ?x, H : sdk ?R ?c ?x = (_, ?y) |- _ =>
                 lazymatch goal with
                 | _ : wf y |- _ => fail
                 | _ => pose proof (wf_after R c x _ y Hw H)
                 end
             end;
      match goal with
      | H : sdk _ (GetMin ?cam ?f) ?x = (Returned ?m, ?y), Hw : wf ?x
        |- within_sensor _ _ ?f ?m ?y =>
          exact (reported_min_fits cam f x m y Hw eq_refl H)
      end.
Qed.

End Sensor.

Ltac units := repeat match goal with u : unit |- _ => destruct u end.

Section Session.
Context {Dev : Type} (sdk : handler Dev).

(** C8: [create_simple_camera] never loads the configuration before a
    successful [Open]; when the enumeration raises (no device present) the
    wrapper raises that exception and neither opens nor loads anything; when
    the load raises (the file does not parse or apply) the wrapper raises
    that exception; and a run that returns has made exactly these calls, in
    this order: get the transport-layer factory, create the first device,
    wrap it in a camera, read its model name, open the camera, get its node
    map, load the configuration file into it. *)
Theorem create_simple_camera_order :
  forall config_file_dir d,
    load_follows_open false
      (calls (snd (run (create_simple_camera sdk config_file_dir) d))) = true /\
    (forall e,
        In e (failures is_enumeration
                (calls (snd (run (create_simple_camera sdk config_file_dir) d)))) ->
        fst (run (create_simple_camera sdk config_file_dir) d) = Raised e /\
        attempted is_open (calls (snd (run (create_simple_camera sdk config_file_dir) d)))
        = false /\
        attempted is_load (calls (snd (run (create_simple_camera sdk config_file_dir) d)))
        = false) /\
    (forall e,
        In e (failures is_load
                (calls (snd (run (create_simple_camera sdk config_file_dir) d)))) ->
        fst (run (create_simple_camera sdk config_file_dir) d) = Raised e) /\
    (forall camera,
        fst (run (create_simple_camera sdk config_file_dir) d) = Returned camera ->
        exists tl dv di name nm,
          calls (snd (run (create_simple_camera sdk config_file_dir) d))
          = [Ev TlFactory_GetInstance (Returned tl);
             Ev (CreateFirstDevice tl) (Returned dv);
             Ev (InstantCamera dv) (Returned camera);
             Ev (GetDeviceInfo camera) (Returned di);
             Ev (GetModelName di) (Returned name);
             Ev (Open camera) (Returned tt);
             Ev (GetNodeMap camera) (Returned nm);
             Ev (FeaturePersistence_Load config_file_dir nm true) (Returned tt)]).
Proof.
  intros config_file_dir d. unfold create_simple_camera. pyrun.
  answered sdk; units; cbn;
    (split; [reflexivity |]);
    (split; [intros x Hin; repeat (destruct Hin as [Hin | Hin]; [subst |]);
             try contradiction; repeat split |]);
    (split; [intros x Hin; repeat (destruct Hin as [Hin | Hin]; [subst |]);
             try contradiction; reflexivity |]);
    intros c Hret; inversion Hret; subst; repeat eexists.
Qed.

(** C9: every run of [capture_and_save_png] asks for at most one grab result,
    with the timeout 5000; a result that was retrieved is released exactly
    once, by the last call of the run, whatever happened in between; the
    wrapper returns whenever no call raises; and a run that returns has made
    exactly these calls, in this order: create the image object, retrieve the
    result, attach its buffer to the image, save the image as PNG under the
    given file name, release the image, release the grab result. *)
Theorem capture_and_save_png_sequence :
  forall camera filename d,
    initial_segment
      (retrievals (calls (snd (run (capture_and_save_png sdk camera filename) d))))
      [(5000, None)] /\
    released (calls (snd (run (capture_and_save_png sdk camera filename) d)))
    = retrieved (calls (snd (run (capture_and_save_png sdk camera filename) d))) /\
    (forall gr,
        In gr (retrieved (calls (snd (run (capture_and_save_png sdk camera filename) d)))) ->
        exists earlier answer,
          calls (snd (run (capture_and_save_png sdk camera filename) d))
          = earlier ++ [Ev (Release gr) answer]) /\
    (failures any_call (calls (snd (run (capture_and_save_png sdk camera filename) d))) = [] ->
     fst (run (capture_and_save_png sdk camera filename) d) = Returned tt) /\
    (fst (run (capture_and_save_png sdk camera filename) d) = Returned tt ->
     exists img gr,
       calls (snd (run (capture_and_save_png sdk camera filename) d))
       = [Ev PylonImage (Returned img);
          Ev (RetrieveResult camera 5000 None) (Returned gr);
          Ev (AttachGrabResultBuffer img gr) (Returned tt);
          Ev (Save img ImageFileFormat_Png filename) (Returned tt);
          Ev (ImageRelease img) (Returned tt);
          Ev (Release gr) (Returned tt)]).
Proof.
  intros camera filename d. unfold capture_and_save_png. pyrun.
  answered sdk; units; cbn;
    (split; [eexists; reflexivity |]);
    (split; [reflexivity |]);
    (split; [intros g Hin; repeat (destruct Hin as [Hin | Hin]; [subst |]);
             try contradiction;
             match goal with
             | |- exists earlier answer, ?l = _ =>
                 exists (removelast l); eexists; reflexivity
             end |]);
    (split; [intros Hnone; first [ reflexivity | discriminate Hnone ] |]);
    intros Hret; first [ discriminate Hret | repeat eexists ].
Qed.

(** C10: [capture_and_save_png] never asks a grab result whether it succeeded
    nor for its error; whatever result the retrieval hands out is attached to
    the image object, and once attached is saved as PNG under the given file
    name; and there is no handler: the wrapper returns only when no call
    raised, an exception of the retrieval is raised to the caller as it is,
    and after an exception of the save the wrapper raises too, that exception
    or the one the release on leaving the [with] block raised after it. *)
Theorem capture_and_save_png_unchecked :
  forall camera filename d,
    existsb status_check (calls (snd (run (capture_and_save_png sdk camera filename) d)))
    = false /\
    map (fun a => snd (fst a))
      (attachments (calls (snd (run (capture_and_save_png sdk camera filename) d))))
    = retrieved (calls (snd (run (capture_and_save_png sdk camera filename) d))) /\
    (forall img gr,
        In (img, gr, Returned tt)
           (attachments (calls (snd (run (capture_and_save_png sdk camera filename) d)))) ->
        saves (calls (snd (run (capture_and_save_png sdk camera filename) d)))
        = [(img, ImageFileFormat_Png, filename)]) /\
    match fst (run (capture_and_save_png sdk camera filename) d) with
    | Returned _ =>
        failures any_call (calls (snd (run (capture_and_save_png sdk camera filename) d))) = []
    | Raised e =>
        exists earlier,
          failures any_call (calls (snd (run (capture_and_save_png sdk camera filename) d)))
          = earlier ++ [e]
    end /\
    (forall e,
        In e (failures is_retrieval
                (calls (snd (run (capture_and_save_png sdk camera filename) d)))) ->
        fst (run (capture_and_save_png sdk camera filename) d) = Raised e) /\
    (forall e,
        In e (failures is_save
                (calls (snd (run (capture_and_save_png sdk camera filename) d)))) ->
        fst (run (capture_and_save_png sdk camera filename) d) = Raised e \/
        exists e',
          failures is_release (calls (snd (run (capture_and_save_png sdk camera filename) d)))
          = [e'] /\
          fst (run (capture_and_save_png sdk camera filename) d) = Raised e').
Proof.
  intros camera filename d. unfold capture_and_save_png. pyrun.
  answered sdk; units; cbn;
    (split; [reflexivity |]);
    (split; [reflexivity |]);
    (split; [intros i g Hin; repeat (destruct Hin as [Hin | Hin]; [inversion Hin; subst |]);
             try contradiction; reflexivity |]);
    (split; [first [ reflexivity
                   | exists []; reflexivity
                   | eexists [_]; reflexivity ] |]);
    (split; [intros x Hin; repeat (destruct Hin as [Hin | Hin]; [subst |]);
             try contradiction; reflexivity |]);
    intros x Hin; repeat (destruct Hin as [Hin | Hin]; [subst |]);
    try contradiction;
    first [ left; reflexivity | right; eexists; split; reflexivity ].
Qed.

End Session.

(** ** The bench camera keeps the laws *)

Lemma sim_node_map_laws : node_map_laws Sim.sdk Sim.value.
Proof.
  constructor.
  - reflexivity.
  - reflexivity.
  - reflexivity.
  - intros cam f v d d'. unfold Sim.value. cbn.
    destruct (Sim.locked d f); [discriminate |].
    destruct ((Sim.minimum f <=? v) && (v <=? Sim.maximum d f)); [| discriminate].
    intros H. inversion H; subst; clear H. cbn. split.
    + destruct f; reflexivity.
    + intros g Hg. destruct g, f; try reflexivity; contradiction.
Qed.

Lemma sim_sensor_laws :
  sensor_laws Sim.sdk Sim.value (Sim.sensor Sim.bench) Sim.on_bench.
Proof.
  constructor.
  - intros R c d Hd.
    destruct c; cbn; unfold Sim.the_frame;
      repeat match goal with
             | |- context [match Sim.pending ?s with _ => _ end] => destruct (Sim.pending s)
             | |- context [if ?b then _ else _] => destruct b eqn:?
             end;
      try exact Hd.
    match goal with
    | Hrange : (_ <=? _) && (_ <=? _) = true |- _ =>
        apply andb_prop in Hrange; destruct Hrange as [Hlo Hhi]
    end.
    apply Z.leb_le in Hlo. apply Z.leb_le in Hhi.
    destruct Hd as ((H1 & H2 & H3 & H4 & H5 & H6) & Hw & Hh).
    unfold Sim.on_bench, Sim.wf. cbn.
    unfold Sim.maximum, Sim.sensor in Hhi.
    destruct f; cbn in *; repeat split; try assumption; lia.
  - intros cam f d m ((H1 & H2 & H3 & H4 & H5 & H6) & Hw & Hh) Hf Hm.
    cbn in Hm. inversion Hm; subst; clear Hm.
    unfold within_sensor, Sim.value, Sim.sensor.
    cbn in Hw, Hh.
    destruct f; try discriminate; cbn; lia.
Qed.


(** ** The statements on the bench camera *)

(** No frame arrives within the timeout and the bench camera's exception
    objects have no [GetDescription]: one line is printed and the
    [AttributeError] reaches the caller. *)
Lemma take_one_on_timeout :
  run (take_one_opencv_image Sim.sdk Sim.cam Sim.conv) Sim.timeout_bench
  = (Raised Sim.attribute_error,
     World Sim.timeout_bench
           [Step Sim.timeout_bench
                 (Ev (RetrieveResult Sim.cam 5000 (Some TimeoutHandling_ThrowException))
                     (Raised Sim.timed_out));
            Step Sim.timeout_bench
                 (Ev (GetDescription Sim.timed_out) (Raised Sim.attribute_error))]
           [[PStr "An exception occurred."]]).
Proof.
  exact (proj2 (proj2 (take_one_retrieval_exception Sim.sdk Sim.cam Sim.conv
                         Sim.timeout_bench)
                      Sim.timed_out Sim.timeout_bench eq_refl eq_refl)
               Sim.attribute_error Sim.timeout_bench eq_refl).
Defined.

(** A frame that grabs but does not convert: the grab result stays
    unreleased. *)
Lemma take_one_on_undecodable_frame :
  retrieved (calls (snd (run (take_one_opencv_image Sim.sdk Sim.cam Sim.conv)
                             Sim.undecodable_bench)))
  = [GrabResult 0] /\
  released (calls (snd (run (take_one_opencv_image Sim.sdk Sim.cam Sim.conv)
                            Sim.undecodable_bench)))
  = [].
Proof.
  exact (take_one_conversion_exception_skips_release
           Sim.sdk Sim.cam Sim.conv Sim.undecodable_bench
           (GrabResult 0) (Sim.with_held 1 Sim.undecodable_bench)
           (Sim.with_held 1 Sim.undecodable_bench) Sim.not_convertible
           (Sim.with_held 1 Sim.undecodable_bench)
           eq_refl eq_refl eq_refl).
Defined.

(** A frame whose grab failed: the error is printed, the result released, and
    the caller gets an [UnboundLocalError]. *)
Lemma take_one_on_failed_frame :
  fst (run (take_one_opencv_image Sim.sdk Sim.cam Sim.conv) Sim.failed_bench)
  = Raised (UnboundLocalError "img") /\
  stdout (snd (run (take_one_opencv_image Sim.sdk Sim.cam Sim.conv) Sim.failed_bench))
  = [[PStr "Error: "; PInt 3774873620; PStr "The buffer was incompletely grabbed."]] /\
  released (calls (snd (run (take_one_opencv_image Sim.sdk Sim.cam Sim.conv)
                            Sim.failed_bench)))
  = [GrabResult 0].
Proof.
  exact (take_one_failed_grab_raises
           Sim.sdk Sim.cam Sim.conv Sim.failed_bench
           (GrabResult 0) (Sim.with_held 1 Sim.failed_bench)
           (Sim.with_held 1 Sim.failed_bench) 3774873620
           (Sim.with_held 1 Sim.failed_bench) "The buffer was incompletely grabbed."
           (Sim.with_held 1 Sim.failed_bench)
           (Sim.with_held 0 (Sim.with_held 1 Sim.failed_bench))
           eq_refl eq_refl eq_refl eq_refl eq_refl).
Defined.




(** [max_ROI] on the bench camera: both offsets go to 0 first, each inside
    the sensor with the size of the moment. *)
Lemma max_ROI_offsets_first_on_bench :
  in_two_phases is_offset
    (map fst (assigned (calls (snd (run (max_ROI Sim.sdk Sim.cam) Sim.bench))))) = true /\
  forall s f v,
    In (s, f, v) (offset_writes (log (snd (run (max_ROI Sim.sdk Sim.cam) Sim.bench)))) ->
    is_offset f = true /\
    reported_min f (calls (snd (run (max_ROI Sim.sdk Sim.cam) Sim.bench))) = [v] /\
    within_sensor Sim.value (Sim.sensor Sim.bench) f v s.
Proof.
  apply (max_ROI_offsets_first Sim.sdk Sim.value (Sim.sensor Sim.bench) Sim.on_bench
           sim_node_map_laws sim_sensor_laws Sim.cam Sim.bench).
  unfold Sim.on_bench, Sim.wf. cbn. lia.
Defined.

(** A width beyond the sensor, and a locked width, on the bench camera,
    whose exception objects have no [what]: neither wrapper returns, and
    what reaches the caller is the [AttributeError], not the configuration
    error. *)
Lemma rejected_assignment_on_bench :
  fst (run (change_ROI Sim.sdk Sim.cam (2000, 100) (0, 0)) Sim.bench)
  = Raised Sim.attribute_error /\
  fst (run (max_ROI Sim.sdk Sim.cam) Sim.locked_width_bench)
  = Raised Sim.attribute_error.
Proof.
  split.
  - destruct (proj1 (rejected_assignment_reaches_caller
                       Sim.sdk Sim.cam (2000, 100) (0, 0) Sim.bench)
                    Width 2000 Sim.out_of_range (or_introl eq_refl) eq_refl)
      as (answer & Hasked & Hraised).
    inversion Hasked; subst answer. exact Hraised.
  - destruct (proj2 (rejected_assignment_reaches_caller
                       Sim.sdk Sim.cam (0, 0) (0, 0) Sim.locked_width_bench)
                    Width 1920 Sim.not_writable
                    (or_intror (or_intror (or_introl eq_refl))) eq_refl)
      as (answer & Hasked & Hraised).
    inversion Hasked; subst answer. exact Hraised.
Defined.

(** Opening the bench camera with its configuration file, and with no camera
    plugged in. *)
Lemma create_simple_camera_on_bench :
  (exists tl dv di name nm,
      calls (snd (run (create_simple_camera Sim.sdk "acA1920.pfs") Sim.bench))
      = [Ev TlFactory_GetInstance (Returned tl);
         Ev (CreateFirstDevice tl) (Returned dv);
         Ev (InstantCamera dv) (Returned Sim.cam);
         Ev (GetDeviceInfo Sim.cam) (Returned di);
         Ev (GetModelName di) (Returned name);
         Ev (Open Sim.cam) (Returned tt);
         Ev (GetNodeMap Sim.cam) (Returned nm);
         Ev (FeaturePersistence_Load "acA1920.pfs" nm true) (Returned tt)]) /\
  (fst (run (create_simple_camera Sim.sdk "acA1920.pfs") (Sim.unplugged Sim.bench))
   = Raised Sim.no_device /\
   attempted is_open
     (calls (snd (run (create_simple_camera Sim.sdk "acA1920.pfs") (Sim.unplugged Sim.bench))))
   = false /\
   attempted is_load
     (calls (snd (run (create_simple_camera Sim.sdk "acA1920.pfs") (Sim.unplugged Sim.bench))))
   = false) /\
  fst (run (create_simple_camera Sim.sdk "other.pfs") Sim.bench) = Raised Sim.not_parsed.
Proof.
  split; [| split].
  - exact (proj2 (proj2 (proj2 (create_simple_camera_order Sim.sdk "acA1920.pfs" Sim.bench)))
                 Sim.cam eq_refl).
  - exact (proj1 (proj2 (create_simple_camera_order Sim.sdk "acA1920.pfs"
                           (Sim.unplugged Sim.bench)))
                 Sim.no_device (or_introl eq_refl)).
  - exact (proj1 (proj2 (proj2 (create_simple_camera_order Sim.sdk "other.pfs" Sim.bench)))
                 Sim.not_parsed (or_introl eq_refl)).
Defined.

(** Saving a frame of the bench camera. *)
Lemma capture_and_save_png_on_bench :
  exists img gr,
    calls (snd (run (capture_and_save_png Sim.sdk Sim.cam "frame.png") Sim.bench))
    = [Ev PylonImage (Returned img);
       Ev (RetrieveResult Sim.cam 5000 None) (Returned gr);
       Ev (AttachGrabResultBuffer img gr) (Returned tt);
       Ev (Save img ImageFileFormat_Png "frame.png") (Returned tt);
       Ev (ImageRelease img) (Returned tt);
       Ev (Release gr) (Returned tt)].
Proof.
  exact (proj2 (proj2 (proj2 (proj2
           (capture_and_save_png_sequence Sim.sdk Sim.cam "frame.png" Sim.bench))))
           eq_refl).
Defined.

(** A frame whose grab failed is saved all the same; a timeout and a full
    disk reach the caller. *)
Lemma capture_and_save_png_on_failed_frame :
  saves (calls (snd (run (capture_and_save_png Sim.sdk Sim.cam "frame.png") Sim.failed_bench)))
  = [(PylonImageObj 0, ImageFileFormat_Png, "frame.png")] /\
  fst (run (capture_and_save_png Sim.sdk Sim.cam "frame.png") Sim.timeout_bench)
  = Raised Sim.timed_out /\
  fst (run (capture_and_save_png Sim.sdk Sim.cam "frame.png") (Sim.with_disk false Sim.bench))
  = Raised Sim.not_saved.
Proof.
  split; [| split].
  - exact (proj1 (proj2 (proj2
             (capture_and_save_png_unchecked Sim.sdk Sim.cam "frame.png" Sim.failed_bench)))
             (PylonImageObj 0) (GrabResult 0) (or_introl eq_refl)).
  - exact (proj1 (proj2 (proj2 (proj2 (proj2
             (capture_and_save_png_unchecked Sim.sdk Sim.cam "frame.png" Sim.timeout_bench)))))
             Sim.timed_out (or_introl eq_refl)).
  - destruct (proj2 (proj2 (proj2 (proj2 (proj2
                (capture_and_save_png_unchecked Sim.sdk Sim.cam "frame.png"
                   (Sim.with_disk false Sim.bench))))))
                Sim.not_saved (or_introl eq_refl)) as [Hsave | (e' & Hrel & _)].
    + exact Hsave.
    + discriminate Hrel.
Defined.

(** A good frame of the bench camera comes back as its array. *)
Lemma take_one_on_good_frame :
  fst (run (take_one_opencv_image Sim.sdk Sim.cam Sim.conv) Sim.bench)
  = Returned (Some (NdArray 2 2 [10; 20; 30; 40])) /\
  stdout (snd (run (take_one_opencv_image Sim.sdk Sim.cam Sim.conv) Sim.bench)) = [] /\
  released (calls (snd (run (take_one_opencv_image Sim.sdk Sim.cam Sim.conv) Sim.bench)))
  = [GrabResult 0].
Proof.
  exact (take_one_successful_grab_returns_array
           Sim.sdk Sim.cam Sim.conv Sim.bench
           (GrabResult 0) (Sim.with_held 1 Sim.bench) (Sim.with_held 1 Sim.bench)
           (PylonImageObj 1) (Sim.with_held 1 Sim.bench)
           (NdArray 2 2 [10; 20; 30; 40]) (Sim.with_held 1 Sim.bench)
           (Sim.with_held 0 (Sim.with_held 1 Sim.bench))
           eq_refl eq_refl eq_refl eq_refl eq_refl).
Defined.

(** The round trip on the bench camera with the y-offset locked at 8. *)
Lemma change_ROI_region_with_locked_offset :
  Sim.value Width
    (dev (snd (run (change_ROI Sim.sdk Sim.cam (800, 600) (32, 24)) Sim.locked_y_bench)))
  = 800 /\
  Sim.value Height
    (dev (snd (run (change_ROI Sim.sdk Sim.cam (800, 600) (32, 24)) Sim.locked_y_bench)))
  = 600 /\
  Sim.value OffsetX
    (dev (snd (run (change_ROI Sim.sdk Sim.cam (800, 600) (32, 24)) Sim.locked_y_bench)))
  = 32 /\
  Sim.value OffsetY
    (dev (snd (run (change_ROI Sim.sdk Sim.cam (800, 600) (32, 24)) Sim.locked_y_bench)))
  = 8.
Proof.
  exact (change_ROI_region Sim.sdk Sim.value sim_node_map_laws Sim.cam (800, 600) (32, 24)
           Sim.locked_y_bench Sim.cam
           (snd (run (change_ROI Sim.sdk Sim.cam (800, 600) (32, 24)) Sim.locked_y_bench))
           eq_refl).
Defined.

(** * Further properties of the wrappers *)

(** ** [take_one_opencv_image]: what the caller can get back *)

Section CaptureOutcomes.
Context {Dev : Type} (sdk : handler Dev).


(** [take_one_opencv_image] returns [None] exactly when a call inside its
    [try] raised a genicam exception and that exception object answered
    [GetDescription()]; the last two lines printed are then
    "An exception occurred." and the answer.  With exception objects that do
    not answer, the wrapper never returns [None]. *)
Theorem take_one_none_iff_description_answered :
  forall camera converter d,
    (fst (run (take_one_opencv_image sdk camera converter) d) = Returned None <->
     exists e description,
       is_GenericException e = true /\
       failures in_try (calls (snd (run (take_one_opencv_image sdk camera converter) d)))
       = [e] /\
       descriptions_asked (calls (snd (run (take_one_opencv_image sdk camera converter) d)))
       = [(e, Returned description)]) /\
    (forall e description,
        descriptions_asked (calls (snd (run (take_one_opencv_image sdk camera converter) d)))
        = [(e, Returned description)] ->
        exists earlier,
          stdout (snd (run (take_one_opencv_image sdk camera converter) d))
          = earlier ++ [[PStr "An exception occurred."]; [PStr description]]).
Proof.
  intros camera converter d. unfold take_one_opencv_image. pyrun.
  answered sdk; cbn; split;
    try (split;
         [ intros Hr;
           first [ discriminate Hr
                 | eexists; eexists; split; [eassumption | split; reflexivity] ]
         | intros (x & s & Hx & Hf & Hd);
           first [ discriminate Hd | discriminate Hf | reflexivity ] ]);
    intros x s Hd; first [ discriminate Hd | inversion Hd; subst; clear Hd ];
    first [ exists []; reflexivity | eexists [_]; reflexivity ].
Qed.

(** An array comes back only from a grab that succeeded: a run that returns
    an array made exactly the five calls retrieve, ask for success (answered
    yes), convert, get the array, release, all answered, returned the array
    the SDK gave, and printed nothing. *)
Theorem take_one_array_from_successful_grab :
  forall camera converter d img,
    fst (run (take_one_opencv_image sdk camera converter) d) = Returned (Some img) ->
    stdout (snd (run (take_one_opencv_image sdk camera converter) d)) = [] /\
    exists gr image,
      calls (snd (run (take_one_opencv_image sdk camera converter) d))
      = [Ev (RetrieveResult camera 5000 (Some TimeoutHandling_ThrowException)) (Returned gr);
         Ev (GrabSucceeded gr) (Returned true);
         Ev (Convert converter gr) (Returned image);
         Ev (GetArray image) (Returned img);
         Ev (Release gr) (Returned tt)].
Proof.
  intros camera converter d img. unfold take_one_opencv_image. pyrun.
  answered sdk; units; cbn; intros Hr; inversion Hr; subst; clear Hr;
    split; [reflexivity | repeat eexists].
Qed.

(** When the retrieved result is left unreleased: exactly when one of the
    calls between the retrieval and the release raised, whatever it raised.
    If none of them raises, what was retrieved is released; if one does, a
    result was retrieved and no release is ever attempted. *)
Theorem take_one_unreleased_iff_inspection_raised :
  forall camera converter d,
    (failures is_inspection
       (calls (snd (run (take_one_opencv_image sdk camera converter) d))) = [] ->
     released (calls (snd (run (take_one_opencv_image sdk camera converter) d)))
     = retrieved (calls (snd (run (take_one_opencv_image sdk camera converter) d)))) /\
    (forall e,
        In e (failures is_inspection
                (calls (snd (run (take_one_opencv_image sdk camera converter) d)))) ->
        released (calls (snd (run (take_one_opencv_image sdk camera converter) d))) = [] /\
        exists gr,
          retrieved (calls (snd (run (take_one_opencv_image sdk camera converter) d)))
          = [gr]).
Proof.
  intros camera converter d. unfold take_one_opencv_image. pyrun.
  answered sdk; cbn; split;
    try (intros Hnone; first [ reflexivity | discriminate Hnone ]);
    intros x Hin; repeat (destruct Hin as [Hin | Hin]; [subst |]);
    try contradiction; (split; [reflexivity | eexists; reflexivity]).
Qed.

End CaptureOutcomes.

(** ** [change_ROI] and [max_ROI]: how they fail *)

Section RegionFailures.
Context {Dev : Type} (sdk : handler Dev).

(** Both wrappers stop at the first SDK call of their [try] that raises, be
    it an assignment or a question about a node: no call before it raised
    and no call to the device follows it.  If what it raised is not a
    genicam exception, it is the last call and the caller gets that
    exception.  If it is one, the only call that follows is [what()] on the
    exception object, and the caller gets the configuration error built from
    the answer, or what that method call raised.  A run that returns hands
    back the camera given and saw no call raise. *)
Theorem roi_wrappers_stop_at_first_exception :
  forall camera dimensions offsets d,
    match fst (run (change_ROI sdk camera dimensions offsets) d) with
    | Returned c =>
        c = camera /\
        failures any_call (calls (snd (run (change_ROI sdk camera dimensions offsets) d))) = []
    | Raised e =>
        exists x earlier failed rest,
          calls (snd (run (change_ROI sdk camera dimensions offsets) d))
          = earlier ++ failed :: rest /\
          failures any_call earlier = [] /\
          failure_of in_try failed = [x] /\
          if is_GenericException x
          then exists answer, rest = [Ev (what x) answer] /\ e = configuration_error answer
          else rest = [] /\ e = x
    end /\
    match fst (run (max_ROI sdk camera) d) with
    | Returned c =>
        c = camera /\
        failures any_call (calls (snd (run (max_ROI sdk camera) d))) = []
    | Raised e =>
        exists x earlier failed rest,
          calls (snd (run (max_ROI sdk camera) d)) = earlier ++ failed :: rest /\
          failures any_call earlier = [] /\
          failure_of in_try failed = [x] /\
          if is_GenericException x
          then exists answer, rest = [Ev (what x) answer] /\ e = configuration_error answer
          else rest = [] /\ e = x
    end.
Proof.
  intros camera dimensions offsets d. split.
  - unfold change_ROI. pyrun.
    answered sdk; cbn;
      first [ split; reflexivity
            | match goal with
              | Hx : is_GenericException ?x = true |- exists _ earlier _ _, ?l = _ /\ _ =>
                  exists x, (removelast (removelast l)); eexists; eexists;
                  (split; [reflexivity | split; [reflexivity | split; [reflexivity |]]]);
                  rewrite Hx; eexists; split; reflexivity
              | Hx : is_GenericException ?x = false |- exists _ earlier _ _, ?l = _ /\ _ =>
                  exists x, (removelast l); eexists; exists [];
                  (split; [reflexivity | split; [reflexivity | split; [reflexivity |]]]);
                  rewrite Hx; split; reflexivity
              end ].
  - unfold max_ROI. pyrun.
    answered sdk; cbn;
      first [ split; reflexivity
            | match goal with
              | Hx : is_GenericException ?x = true |- exists _ earlier _ _, ?l = _ /\ _ =>
                  exists x, (removelast (removelast l)); eexists; eexists;
                  (split; [reflexivity | split; [reflexivity | split; [reflexivity |]]]);
                  rewrite Hx; eexists; split; reflexivity
              | Hx : is_GenericException ?x = false |- exists _ earlier _ _, ?l = _ /\ _ =>
                  exists x, (removelast l); eexists; exists [];
                  (split; [reflexivity | split; [reflexivity | split; [reflexivity |]]]);
                  rewrite Hx; split; reflexivity
              end ].
Qed.

End RegionFailures.

Section RegionNotAtomic.
Context {Dev : Type} (sdk : handler Dev) (value : field -> Dev -> Z).
Hypothesis laws : node_map_laws sdk value.
Hypothesis rejected : rejection_keeps sdk value.

(** [change_ROI] does not undo what it did: when the device accepts the
    width and then rejects the height, the wrapper raises and the camera
    keeps the new width, with height and offsets as they were. *)
Theorem change_ROI_keeps_width_when_height_rejected :
  forall camera dimensions offsets d d1 e d2,
    sdk _ (SetValue camera Width (fst dimensions)) d = (Returned tt, d1) ->
    sdk _ (SetValue camera Height (snd dimensions)) d1 = (Raised e, d2) ->
    (exists x, fst (run (change_ROI sdk camera dimensions offsets) d) = Raised x) /\
    value Width (dev (snd (run (change_ROI sdk camera dimensions offsets) d)))
    = fst dimensions /\
    forall g,
      g <> Width ->
      value g (dev (snd (run (change_ROI sdk camera dimensions offsets) d))) = value g d.
Proof.
  intros camera dimensions offsets d d1 e d2 Hw Hh.
  destruct rejected as [Hrejected Hwhat].
  assert (value Width d2 = fst dimensions /\ forall g, g <> Width -> value g d2 = value g d)
    as [Hwidth Hrest].
  { split.
    - rewrite (Hrejected _ _ _ _ _ _ Width Hh).
      exact (assign_sets sdk value laws _ _ _ _ _ _ Hw).
    - intros g Hg. rewrite (Hrejected _ _ _ _ _ _ g Hh).
      exact (assign_keeps sdk value laws _ _ _ _ _ _ g Hw Hg). }
  unfold change_ROI. pyrun. follow sdk.
  destruct (is_GenericException e); cbn.
  - pose proof (Hwhat e d2) as Hkept.
    destruct (sdk string (what e) d2) as [[msg | x] d3]; cbn in *;
      (split; [eexists; reflexivity |]);
      (split; [rewrite Hkept; exact Hwidth |]);
      intros g Hg; rewrite Hkept; exact (Hrest g Hg).
  - split; [eexists; reflexivity |]. split; assumption.
Qed.

End RegionNotAtomic.

(** ** [capture_and_save_png] and [create_simple_camera]: what is left behind *)

Section LeftBehind.
Context {Dev : Type} (sdk : handler Dev).

(** When attaching the buffer or saving the file raises, the image object is
    never released ([img.Release()] is skipped), while the grab result still
    is, once, on leaving the [with] block. *)
Theorem capture_and_save_png_skips_image_release :
  forall camera filename d e,
    In e (failures is_attachment
            (calls (snd (run (capture_and_save_png sdk camera filename) d)))) \/
    In e (failures is_save
            (calls (snd (run (capture_and_save_png sdk camera filename) d)))) ->
    attempted is_image_release
      (calls (snd (run (capture_and_save_png sdk camera filename) d))) = false /\
    exists gr,
      retrieved (calls (snd (run (capture_and_save_png sdk camera filename) d))) = [gr] /\
      released (calls (snd (run (capture_and_save_png sdk camera filename) d))) = [gr].
Proof.
  intros camera filename d x. unfold capture_and_save_png. pyrun.
  answered sdk; cbn; intros [Hin | Hin];
    repeat (destruct Hin as [Hin | Hin]; [subst |]);
    try contradiction; (split; [reflexivity | eexists; split; reflexivity]).
Qed.

(** [create_simple_camera] never closes a camera: when the configuration
    load raises, the camera has been opened, stays open, and is not handed to
    the caller, who gets the exception. *)
Theorem create_simple_camera_leaves_camera_open :
  forall config_file_dir d,
    attempted is_close (calls (snd (run (create_simple_camera sdk config_file_dir) d)))
    = false /\
    forall e,
      In e (failures is_load
              (calls (snd (run (create_simple_camera sdk config_file_dir) d)))) ->
      answered_ok is_open (calls (snd (run (create_simple_camera sdk config_file_dir) d)))
      = true /\
      fst (run (create_simple_camera sdk config_file_dir) d) = Raised e.
Proof.
  intros config_file_dir d. unfold create_simple_camera. pyrun.
  answered sdk; units; cbn; (split; [reflexivity |]);
    intros x Hin; repeat (destruct Hin as [Hin | Hin]; [subst |]);
    try contradiction; split; reflexivity.
Qed.

(** [create_simple_camera] is the opening of the first device followed by
    [change_feature_map]: once the camera is open, the rest of the run is the
    run of [change_feature_map] on that camera with the same file. *)
Theorem create_simple_camera_ends_in_change_feature_map :
  forall config_file_dir d tl d1 dv d2 camera d3 di d4 name d5 d6,
    sdk _ TlFactory_GetInstance d = (Returned tl, d1) ->
    sdk _ (CreateFirstDevice tl) d1 = (Returned dv, d2) ->
    sdk _ (InstantCamera dv) d2 = (Returned camera, d3) ->
    sdk _ (GetDeviceInfo camera) d3 = (Returned di, d4) ->
    sdk _ (GetModelName di) d4 = (Returned name, d5) ->
    sdk _ (Open camera) d5 = (Returned tt, d6) ->
    run (create_simple_camera sdk config_file_dir) d
    = change_feature_map sdk camera config_file_dir
        (World d6
               [Step d (Ev TlFactory_GetInstance (Returned tl));
                Step d1 (Ev (CreateFirstDevice tl) (Returned dv));
                Step d2 (Ev (InstantCamera dv) (Returned camera));
                Step d3 (Ev (GetDeviceInfo camera) (Returned di));
                Step d4 (Ev (GetModelName di) (Returned name));
                Step d5 (Ev (Open camera) (Returned tt))]
               [[PStr "Using device "; PStr name];
                [PStr "Reading file back to camera's node map..."]]).
Proof.
  intros config_file_dir d tl d1 dv d2 camera d3 di d4 name d5 d6 H1 H2 H3 H4 H5 H6.
  unfold create_simple_camera, change_feature_map. pyrun. follow sdk. reflexivity.
Qed.

(** [change_feature_map] neither enumerates nor opens nor closes anything;
    it returns, with the camera it was given, exactly when neither the node
    map request nor the load raised, and the load is then made with
    validation on, on the node map of that camera; otherwise the caller gets
    the SDK's exception as it is. *)
Theorem change_feature_map_loads_or_raises :
  forall camera config_file_dir d,
    attempted is_enumeration (calls (snd (run (change_feature_map sdk camera config_file_dir) d)))
    = false /\
    attempted is_open (calls (snd (run (change_feature_map sdk camera config_file_dir) d)))
    = false /\
    attempted is_close (calls (snd (run (change_feature_map sdk camera config_file_dir) d)))
    = false /\
    match fst (run (change_feature_map sdk camera config_file_dir) d) with
    | Returned c =>
        c = camera /\
        exists nm,
          calls (snd (run (change_feature_map sdk camera config_file_dir) d))
          = [Ev (GetNodeMap camera) (Returned nm);
             Ev (FeaturePersistence_Load config_file_dir nm true) (Returned tt)]
    | Raised e =>
        failures any_call (calls (snd (run (change_feature_map sdk camera config_file_dir) d)))
        = [e]
    end.
Proof.
  intros camera config_file_dir d. unfold change_feature_map. pyrun.
  answered sdk; units; cbn; repeat split; eexists; reflexivity.
Qed.

(** [opencv_converter] hands out the converter only after both settings were
    accepted, BGR8packed as pixel format first and MsbAligned as bit
    alignment second, on the converter it created; if the creation or a
    setting raises, the caller gets that exception and no converter. *)
Theorem opencv_converter_configured_or_raises :
  forall d,
    match fst (run (opencv_converter sdk) d) with
    | Returned cv =>
        calls (snd (run (opencv_converter sdk) d))
        = [Ev ImageFormatConverter (Returned cv);
           Ev (SetOutputPixelFormat cv PixelType_BGR8packed) (Returned tt);
           Ev (SetOutputBitAlignment cv OutputBitAlignment_MsbAligned) (Returned tt)]
    | Raised e =>
        exists earlier last,
          calls (snd (run (opencv_converter sdk) d)) = earlier ++ [last] /\
          failures any_call earlier = [] /\
          failure_of any_call last = [e]
    end.
Proof.
  intros d. unfold opencv_converter. pyrun.
  answered sdk; units; cbn;
    first [ reflexivity
          | match goal with
            | |- exists earlier last, ?l = _ /\ _ =>
                exists (removelast l); eexists; repeat split
            end ].
Qed.

End LeftBehind.

(** ** The region wrappers on the bench camera

    On the bench camera the limits of a node move with its partner: the
    maximum of a size is the sensor's extent less the current offset, the
    maximum of an offset the extent less the current size.  There the order
    in which a wrapper assigns the nodes decides what it can do. *)

(** Splits on every test the bench camera makes and turns the answers into
    inequalities. *)
Ltac bench_tests :=
  repeat match goal with
         | |- context [if ?b then _ else _] =>
             let H := fresh "Htest" in destruct b eqn:H; cbn
         end;
  repeat match goal with
         | H : _ && _ = true |- _ => apply andb_prop in H; destruct H
         | H : _ && _ = false |- _ => apply andb_false_iff in H
         | H : (_ <=? _) = true |- _ => apply Z.leb_le in H
         | H : (_ <=? _) = false |- _ => apply Z.leb_gt in H
         end.

(** Closes the branches in which a node of an unlocked camera is locked. *)
Ltac no_lock Hun :=
  try solve [ match goal with
              | H : context [Sim.locked _ _] |- _ =>
                  rewrite ?Hun in H; cbn in H; discriminate H
              end ].

Section OnBench.
Import Sim.

(** From any region inside the sensor, with no node locked, [max_ROI]
    returns and leaves the full frame: offsets 0, width and height the
    sensor's, which are the limits the camera then reports. *)
Theorem max_ROI_reaches_full_frame :
  forall camera s,
    unlocked s -> wf s ->
    fst (run (max_ROI sdk camera) s) = Returned camera /\
    roi (dev (snd (run (max_ROI sdk camera) s))) OffsetX = 0 /\
    roi (dev (snd (run (max_ROI sdk camera) s))) OffsetY = 0 /\
    roi (dev (snd (run (max_ROI sdk camera) s))) Width = sensor_w s /\
    roi (dev (snd (run (max_ROI sdk camera) s))) Height = sensor_h s /\
    maximized sdk value camera (dev (snd (run (max_ROI sdk camera) s))).
Proof.
  intros camera s Hun (H1 & H2 & H3 & H4 & H5 & H6).
  unfold max_ROI, maximized. pyrun. cbn.
  rewrite !Hun. cbn.
  unfold maximum, minimum, sensor. cbn.
  bench_tests; no_lock Hun; unfold value; cbn; repeat split;
    try reflexivity; try (f_equal; lia); lia.
Qed.

(** With no node locked, [change_ROI] returns exactly for the requests whose
    sizes fit beside the offsets the camera has before the call and whose
    offsets fit beside the requested sizes; it then leaves the requested
    region.  For every other request it does not return: the bench camera
    rejects an assignment, its exception object has no [what], and the
    [AttributeError] of the [except] clause reaches the caller. *)
Theorem change_ROI_checks_sizes_against_old_offsets :
  forall camera s dimensions offsets,
    unlocked s ->
    (fst (run (change_ROI sdk camera dimensions offsets) s) = Returned camera <->
     accepts s dimensions offsets) /\
    (accepts s dimensions offsets ->
     roi (dev (snd (run (change_ROI sdk camera dimensions offsets) s))) Width
     = fst dimensions /\
     roi (dev (snd (run (change_ROI sdk camera dimensions offsets) s))) Height
     = snd dimensions /\
     roi (dev (snd (run (change_ROI sdk camera dimensions offsets) s))) OffsetX
     = fst offsets /\
     roi (dev (snd (run (change_ROI sdk camera dimensions offsets) s))) OffsetY
     = snd offsets) /\
    (~ accepts s dimensions offsets ->
     fst (run (change_ROI sdk camera dimensions offsets) s) = Raised attribute_error).
Proof.
  intros camera s [w h] [x y] Hun.
  unfold change_ROI, accepts. pyrun. cbn.
  rewrite !Hun. cbn.
  unfold maximum, minimum, sensor. cbn.
  bench_tests; no_lock Hun; repeat split; intros;
    try reflexivity; try discriminate; try lia;
    exfalso; intuition lia.
Qed.

(** After [max_ROI], [change_ROI] gets every rectangle inside the sensor
    through: with no node locked, [change_ROI(max_ROI(camera), ...)]
    returns and leaves exactly the requested region. *)
Theorem change_ROI_after_max_ROI :
  forall camera s dimensions offsets,
    unlocked s -> wf s -> inside_sensor s dimensions offsets ->
    fst (run (c <- max_ROI sdk camera ;; change_ROI sdk c dimensions offsets) s)
    = Returned camera /\
    roi (dev (snd (run (c <- max_ROI sdk camera ;; change_ROI sdk c dimensions offsets) s)))
      Width = fst dimensions /\
    roi (dev (snd (run (c <- max_ROI sdk camera ;; change_ROI sdk c dimensions offsets) s)))
      Height = snd dimensions /\
    roi (dev (snd (run (c <- max_ROI sdk camera ;; change_ROI sdk c dimensions offsets) s)))
      OffsetX = fst offsets /\
    roi (dev (snd (run (c <- max_ROI sdk camera ;; change_ROI sdk c dimensions offsets) s)))
      OffsetY = snd offsets.
Proof.
  intros camera s [w h] [x y] Hun (H1 & H2 & H3 & H4 & H5 & H6) (I1 & I2 & I3 & I4 & I5 & I6).
  unfold max_ROI, change_ROI. pyrun. cbn in *.
  rewrite !Hun. cbn.
  unfold maximum, minimum, sensor. cbn.
  bench_tests; no_lock Hun; repeat split; try reflexivity; lia.
Qed.

End OnBench.

(** ** The further properties on the bench camera *)

Lemma sim_rejection_keeps : rejection_keeps Sim.sdk Sim.value.
Proof.
  split.
  - intros cam f v d e d' g. cbn.
    destruct (Sim.locked d f).
    + intros H. inversion H. reflexivity.
    + destruct ((Sim.minimum f <=? v) && (v <=? Sim.maximum d f)).
      * discriminate.
      * intros H. inversion H. reflexivity.
  - reflexivity.
Qed.


(** The bench camera's exception objects do not answer [GetDescription]:
    neither a timeout nor a frame that does not convert gives [None]. *)
Lemma no_none_on_bench :
  fst (run (take_one_opencv_image Sim.sdk Sim.cam Sim.conv) Sim.timeout_bench)
  <> Returned None /\
  fst (run (take_one_opencv_image Sim.sdk Sim.cam Sim.conv) Sim.undecodable_bench)
  <> Returned None.
Proof.
  split; intros Hnone.
  - apply (proj1 (proj1 (take_one_none_iff_description_answered
                           Sim.sdk Sim.cam Sim.conv Sim.timeout_bench))) in Hnone.
    destruct Hnone as (e & description & _ & _ & Hasked). discriminate Hasked.
  - apply (proj1 (proj1 (take_one_none_iff_description_answered
                           Sim.sdk Sim.cam Sim.conv Sim.undecodable_bench))) in Hnone.
    destruct Hnone as (e & description & _ & _ & Hasked). discriminate Hasked.
Defined.

Lemma array_on_good_frame :
  stdout (snd (run (take_one_opencv_image Sim.sdk Sim.cam Sim.conv) Sim.bench)) = [] /\
  exists gr image,
    calls (snd (run (take_one_opencv_image Sim.sdk Sim.cam Sim.conv) Sim.bench))
    = [Ev (RetrieveResult Sim.cam 5000 (Some TimeoutHandling_ThrowException)) (Returned gr);
       Ev (GrabSucceeded gr) (Returned true);
       Ev (Convert Sim.conv gr) (Returned image);
       Ev (GetArray image) (Returned (NdArray 2 2 [10; 20; 30; 40]));
       Ev (Release gr) (Returned tt)].
Proof.
  exact (take_one_array_from_successful_grab Sim.sdk Sim.cam Sim.conv Sim.bench
           (NdArray 2 2 [10; 20; 30; 40]) eq_refl).
Defined.

Lemma unreleased_on_undecodable_frame :
  released (calls (snd (run (take_one_opencv_image Sim.sdk Sim.cam Sim.conv)
                            Sim.undecodable_bench))) = [] /\
  exists gr,
    retrieved (calls (snd (run (take_one_opencv_image Sim.sdk Sim.cam Sim.conv)
                               Sim.undecodable_bench))) = [gr].
Proof.
  exact (proj2 (take_one_unreleased_iff_inspection_raised
                  Sim.sdk Sim.cam Sim.conv Sim.undecodable_bench)
               Sim.not_convertible (or_introl eq_refl)).
Defined.

(** A height beyond the sensor: the rejected assignment is followed by
    [what()] on its exception and by nothing else. *)
Lemma change_ROI_stops_at_rejected_height :
  exists x earlier failed rest,
    calls (snd (run (change_ROI Sim.sdk Sim.cam (800, 5000) (0, 0)) Sim.bench))
    = earlier ++ failed :: rest /\
    failures any_call earlier = [] /\
    failure_of in_try failed = [x] /\
    if is_GenericException x
    then exists answer,
        rest = [Ev (what x) answer] /\ Sim.attribute_error = configuration_error answer
    else rest = [] /\ Sim.attribute_error = x.
Proof.
  exact (proj1 (roi_wrappers_stop_at_first_exception Sim.sdk Sim.cam (800, 5000) (0, 0)
                  Sim.bench)).
Defined.

(** The bench camera after a request with a good width and a height beyond
    the sensor. *)
Lemma width_kept_when_height_rejected :
  (exists x,
      fst (run (change_ROI Sim.sdk Sim.cam (800, 5000) (0, 0)) Sim.bench) = Raised x) /\
  Sim.value Width (dev (snd (run (change_ROI Sim.sdk Sim.cam (800, 5000) (0, 0)) Sim.bench)))
  = 800 /\
  forall g,
    g <> Width ->
    Sim.value g (dev (snd (run (change_ROI Sim.sdk Sim.cam (800, 5000) (0, 0)) Sim.bench)))
    = Sim.value g Sim.bench.
Proof.
  exact (change_ROI_keeps_width_when_height_rejected
           Sim.sdk Sim.value sim_node_map_laws sim_rejection_keeps
           Sim.cam (800, 5000) (0, 0) Sim.bench
           (Sim.with_roi Width 800 Sim.bench) Sim.out_of_range
           (Sim.with_roi Width 800 Sim.bench) eq_refl eq_refl).
Defined.

Lemma image_not_released_on_full_disk :
  attempted is_image_release
    (calls (snd (run (capture_and_save_png Sim.sdk Sim.cam "frame.png")
                     (Sim.with_disk false Sim.bench)))) = false /\
  exists gr,
    retrieved (calls (snd (run (capture_and_save_png Sim.sdk Sim.cam "frame.png")
                               (Sim.with_disk false Sim.bench)))) = [gr] /\
    released (calls (snd (run (capture_and_save_png Sim.sdk Sim.cam "frame.png")
                              (Sim.with_disk false Sim.bench)))) = [gr].
Proof.
  exact (capture_and_save_png_skips_image_release Sim.sdk Sim.cam "frame.png"
           (Sim.with_disk false Sim.bench) Sim.not_saved
           (or_intror (or_introl eq_refl))).
Defined.

Lemma camera_left_open_on_bad_file :
  answered_ok is_open (calls (snd (run (create_simple_camera Sim.sdk "other.pfs") Sim.bench)))
  = true /\
  fst (run (create_simple_camera Sim.sdk "other.pfs") Sim.bench) = Raised Sim.not_parsed.
Proof.
  exact (proj2 (create_simple_camera_leaves_camera_open Sim.sdk "other.pfs" Sim.bench)
               Sim.not_parsed (or_introl eq_refl)).
Defined.

Lemma create_simple_camera_ends_in_change_feature_map_on_bench :
  run (create_simple_camera Sim.sdk "acA1920.pfs") Sim.bench
  = change_feature_map Sim.sdk Sim.cam "acA1920.pfs"
      (World (Sim.with_opened true Sim.bench)
             [Step Sim.bench (Ev TlFactory_GetInstance (Returned (TlFactory 0)));
              Step Sim.bench (Ev (CreateFirstDevice (TlFactory 0)) (Returned (Device 0)));
              Step Sim.bench (Ev (InstantCamera (Device 0)) (Returned Sim.cam));
              Step Sim.bench (Ev (GetDeviceInfo Sim.cam) (Returned (DeviceInfo 0)));
              Step Sim.bench (Ev (GetModelName (DeviceInfo 0)) (Returned "acA1920-40uc"));
              Step Sim.bench (Ev (Open Sim.cam) (Returned tt))]
             [[PStr "Using device "; PStr "acA1920-40uc"];
              [PStr "Reading file back to camera's node map..."]]).
Proof.
  exact (create_simple_camera_ends_in_change_feature_map
           Sim.sdk "acA1920.pfs" Sim.bench
           (TlFactory 0) Sim.bench (Device 0) Sim.bench Sim.cam Sim.bench
           (DeviceInfo 0) Sim.bench "acA1920-40uc" Sim.bench
           (Sim.with_opened true Sim.bench)
           eq_refl eq_refl eq_refl eq_refl eq_refl eq_refl).
Defined.

Lemma full_frame_on_bench :
  fst (run (max_ROI Sim.sdk Sim.cam) Sim.bench) = Returned Sim.cam /\
  Sim.roi (dev (snd (run (max_ROI Sim.sdk Sim.cam) Sim.bench))) OffsetX = 0 /\
  Sim.roi (dev (snd (run (max_ROI Sim.sdk Sim.cam) Sim.bench))) OffsetY = 0 /\
  Sim.roi (dev (snd (run (max_ROI Sim.sdk Sim.cam) Sim.bench))) Width = 1920 /\
  Sim.roi (dev (snd (run (max_ROI Sim.sdk Sim.cam) Sim.bench))) Height = 1200 /\
  maximized Sim.sdk Sim.value Sim.cam (dev (snd (run (max_ROI Sim.sdk Sim.cam) Sim.bench))).
Proof.
  apply (max_ROI_reaches_full_frame Sim.cam Sim.bench).
  - intros f. reflexivity.
  - unfold Sim.wf. cbn. lia.
Defined.

(** The full frame asked of the bench camera while its offsets are (16, 8):
    refused, although the requested offsets (0, 0) would make it fit. *)
Lemma full_frame_rejected_beside_old_offsets :
  fst (run (change_ROI Sim.sdk Sim.cam (1920, 1200) (0, 0)) Sim.bench)
  = Raised Sim.attribute_error.
Proof.
  apply (proj2 (proj2 (change_ROI_checks_sizes_against_old_offsets
                         Sim.cam Sim.bench (1920, 1200) (0, 0) (fun f => eq_refl)))).
  unfold Sim.accepts. cbn. lia.
Defined.

(** The same request after [max_ROI]: accepted. *)
Lemma full_frame_accepted_after_max_ROI :
  fst (run (c <- max_ROI Sim.sdk Sim.cam ;; change_ROI Sim.sdk c (1920, 1200) (0, 0))
           Sim.bench)
  = Returned Sim.cam /\
  Sim.roi (dev (snd (run (c <- max_ROI Sim.sdk Sim.cam ;;
                          change_ROI Sim.sdk c (1920, 1200) (0, 0)) Sim.bench)))
    Width = 1920 /\
  Sim.roi (dev (snd (run (c <- max_ROI Sim.sdk Sim.cam ;;
                          change_ROI Sim.sdk c (1920, 1200) (0, 0)) Sim.bench)))
    Height = 1200 /\
  Sim.roi (dev (snd (run (c <- max_ROI Sim.sdk Sim.cam ;;
                          change_ROI Sim.sdk c (1920, 1200) (0, 0)) Sim.bench)))
    OffsetX = 0 /\
  Sim.roi (dev (snd (run (c <- max_ROI Sim.sdk Sim.cam ;;
                          change_ROI Sim.sdk c (1920, 1200) (0, 0)) Sim.bench)))
    OffsetY = 0.
Proof.
  apply (change_ROI_after_max_ROI Sim.cam Sim.bench (1920, 1200) (0, 0)).
  - intros f. reflexivity.
  - unfold Sim.wf. cbn. lia.
  - unfold Sim.inside_sensor. cbn. lia.
Defined.
